(** * A shallow embedding of the membership application [app.py]

    The application is a Flask program: request handlers that validate a
    form, read or write a DynamoDB table and answer with a rendered page, a
    redirect or an HTTP error.  Each handler is embedded as a function from
    the request and the application state to an [Outcome]: the response, the
    messages flashed, and the state after the request.

    Conventions.
    - A Python [str] is a Rocq [string]; message literals are kept verbatim.
    - A DynamoDB attribute value is [AttrS s] (the wire form [{'S': s}], the
      Python value [s]) or [AttrBOOL b].
    - The store answers every call (no transient service fault); the
      [ClientError] paths that remain are the ones the request itself causes.
    - CSRF token checking and template rendering belong to the framework and
      are not modelled: a rendered page is the template name and the values
      handed to it. *)

From Stdlib Require Import Ascii String.
From stdpp Require Import base strings gmap list option fin_maps pretty.

(** ** Python values, exceptions *)

Inductive AttributeValue :=
| AttrS (s : string)
| AttrBOOL (b : bool).

#[global] Instance AttributeValue_eq_dec : EqDecision AttributeValue.
Proof. solve_decision. Defined.

Abbreviation Item := (gmap string AttributeValue).

(** [str(v)] *)
Definition py_str (v : AttributeValue) : string :=
  match v with
  | AttrS s => s
  | AttrBOOL true => "True"
  | AttrBOOL false => "False"
  end.

(** Truth value of a Python [str]. *)
Definition truthy (s : string) : bool :=
  match s with EmptyString => false | _ => true end.

Inductive exn :=
| TypeError (what : string)
| KeyError (key : string)
| AttributeError (name : string)
| NameError (name : string)
| ValueError (what : string)
| ClientError (code : string).

#[global] Instance exn_eq_dec : EqDecision exn.
Proof. solve_decision. Defined.

(** A computation that returns or raises. *)
#[global] Instance exn_ret : MRet (sum exn) := λ A a, inr a.
#[global] Instance exn_bind : MBind (sum exn) :=
  λ A B k m, match m with inl e => inl e | inr a => k a end.

(** ** The record store (DynamoDB) *)

(** A table is keyed by one string attribute ([user_id], [post_id]).  A row
    read from the table always carries its key attribute. *)
Record Table := {
  key_name : string;
  rows : gmap string Item;
}.

Definition read_row (t : Table) (k : string) (it : Item) : Item :=
  <[key_name t := AttrS k]> it.

(** [get_item(Key={key: {'S': k}})]: [Some item] when the response has
    ['Item']. *)
Definition get_item (t : Table) (k : string) : option Item :=
  read_row t k <$> rows t !! k.

(** [put_item(Item=item)]: replaces the row with the item's key; the store
    rejects an item without a string key. *)
Definition put_item (t : Table) (item : Item) : exn + Table :=
  match item !! key_name t with
  | Some (AttrS k) =>
      inr {| key_name := key_name t; rows := <[k := item]> (rows t) |}
  | _ => inl (ClientError "ValidationException")
  end.

Definition apply_set (it : Item) (assignment : string * AttributeValue) : Item :=
  <[assignment.1 := assignment.2]> it.

(** [update_item(Key=k, UpdateExpression="SET a = :a, ...")]: sets the named
    attributes of the row [k] and leaves its other attributes; a missing row
    is created (DynamoDB's update is an upsert). *)
Definition update_item (t : Table) (k : string)
    (assignments : list (string * AttributeValue)) : Table :=
  {| key_name := key_name t;
     rows := <[k := foldl apply_set (default ∅ (rows t !! k)) assignments]> (rows t) |}.

(** [scan()] *)
Definition scan (t : Table) : list Item :=
  (λ kv, read_row t kv.1 kv.2) <$> map_to_list (rows t).

(** [query(IndexName='email-index', KeyConditionExpression='email = :email')]:
    the rows whose [email] attribute is the string [e]. *)
Definition query_email_index (t : Table) (e : string) : list Item :=
  filter (λ it, it !! "email" = Some (AttrS e)) (scan t).

(** [item[a]['S']] on the wire form: [None] stands for the [KeyError]. *)
Definition get_S (it : Item) (a : string) : option string :=
  match it !! a with
  | Some (AttrS s) => Some s
  | _ => None
  end.

(** [item.get(a, {}).get('BOOL', False)] *)
Definition get_BOOL (it : Item) (a : string) : bool :=
  match it !! a with
  | Some (AttrBOOL b) => b
  | _ => false
  end.

(** ** Application state, requests, outcomes *)

Record State := {
  user_rows : gmap string Item;       (* the rows of app.table_name *)
  post_rows : gmap string Item;       (* the rows of the posts table *)
  posts_table_name : option string;   (* app.posts_table_name, when set *)
  session : option string;            (* the user id bound by login_user *)
}.

(** [app.table] / [app.table_name]: the member table, keyed by [user_id]. *)
Definition users (st : State) : Table :=
  {| key_name := "user_id"; rows := user_rows st |}.

(** The posts table, keyed by [post_id]. *)
Definition posts (st : State) : Table :=
  {| key_name := "post_id"; rows := post_rows st |}.

Definition set_users (st : State) (t : Table) : State :=
  {| user_rows := rows t; post_rows := post_rows st;
     posts_table_name := posts_table_name st; session := session st |}.

Definition set_posts (st : State) (t : Table) : State :=
  {| user_rows := user_rows st; post_rows := rows t;
     posts_table_name := posts_table_name st; session := session st |}.

Definition set_session (st : State) (s : option string) : State :=
  {| user_rows := user_rows st; post_rows := post_rows st;
     posts_table_name := posts_table_name st; session := s |}.

Inductive Method := GET | POST.

#[global] Instance Method_eq_dec : EqDecision Method.
Proof. solve_decision. Defined.

Record Request := {
  method : Method;
  path : string;
  form : gmap string string;    (* request.form *)
  args : gmap string string;    (* request.args *)
  host_url : string;            (* request.host_url *)
  now : string;                 (* datetime.now().isoformat() *)
  uuid4 : string;               (* str(uuid.uuid4()) *)
  salt : string;                (* the salt drawn by generate_password_hash *)
}.

(** [request.form.get(k)], with a missing field read as the empty string
    (both are false in the handlers' tests). *)
Definition form_get (req : Request) (k : string) : string :=
  default "" (form req !! k).

(** Per-field error lists of a form, in field order ([form.errors]). *)
Abbreviation FormErrors := (list (string * list string)).

Inductive Context :=
| CtxForm (errors : FormErrors)
| CtxPrefilled (values : list (string * string)) (errors : FormErrors)
| CtxPost (post : Item)
| CtxPosts (posts : list Item)
| CtxUsers (users : list Item).

Inductive Response :=
| Render (template : string) (ctx : Context)
| Redirect (location : string)
| Abort (code : nat)
| Uncaught (e : exn).

Record Outcome := {
  response : Response;
  flashed : list (string * string);   (* (message, category), in order *)
  state_after : State;
}.

(** [url_for] on the routes of the application. *)
Definition url_for (endpoint : string) : string :=
  if String.eqb endpoint "index" then "/"
  else "/" +:+ endpoint.

(** ** Library functions the application calls

    [werkzeug.security], the [Email] validator of wtforms, [urllib.parse] and
    the Unicode-aware [str] methods are not part of the application: the
    development is parametric in them, and every theorem holds for whatever
    they compute. *)

(** The two components of [urlparse]'s result the application reads. *)
Record ParseResult := {
  scheme : string;
  netloc : string;
}.

Class Libraries := {
  str_lower : string → string;                          (* s.lower() *)
  str_strip : string → string;                          (* s.strip() *)
  generate_password_hash : string → string → string → string;
                                                        (* method, salt, password *)
  strptime_date : string → option string;               (* '%Y-%m-%d', re-rendered *)
  check_password_hash : string → string → exn + bool;   (* pwhash, password *)
  email_syntax_ok : string → bool;                      (* wtforms Email *)
  urlparse : string → exn + ParseResult;                (* may raise ValueError *)
  urljoin : string → string → exn + string;             (* base, url *)
}.

(** [len(s)]: the number of code points of the UTF-8 text [s]. *)
Definition is_continuation_byte (c : Ascii.ascii) : bool :=
  let n := Ascii.nat_of_ascii c in (128 <=? n) && (n <? 192).

Fixpoint py_len (s : string) : nat :=
  match s with
  | EmptyString => 0
  | String c s' => (if is_continuation_byte c then 0 else 1) + py_len s'
  end.

(** ** The [User] class *)

Record User := {
  user_id : AttributeValue;
  display_name : AttributeValue;
  user_name : AttributeValue;
  furigana : AttributeValue;
  email : AttributeValue;
  password_hash : AttributeValue;
  gender : AttributeValue;
  date_of_birth : AttributeValue;
  post_code : AttributeValue;
  address : AttributeValue;
  phone : AttributeValue;
  organization : string;
  administrator : bool;
  created_at : string;
  updated_at : string;
}.

(** [User.__init__] called with its eleven leading arguments only, as every
    call site of the application does: [organization='uguis'],
    [administrator=False], and both timestamps read from the clock. *)
Definition User_init (clock : string)
    (user_id display_name user_name furigana email password_hash gender
       date_of_birth post_code address phone : AttributeValue) : User :=
  {| user_id := user_id; display_name := display_name; user_name := user_name;
     furigana := furigana; email := email; password_hash := password_hash;
     gender := gender; date_of_birth := date_of_birth; post_code := post_code;
     address := address; phone := phone;
     organization := "uguis"; administrator := false;
     created_at := clock; updated_at := clock |}.

Definition get_id (u : User) : string := py_str (user_id u).

Definition is_administrator (u : User) : bool := administrator u.

(** [User.check_password]: [check_password_hash(self.password_hash, password)];
    a hash that is not a [str] has no [count] method. *)
Definition check_password `{Libraries} (pwhash : AttributeValue)
    (password : string) : exn + bool :=
  match pwhash with
  | AttrS h => check_password_hash h password
  | AttrBOOL _ => inl (AttributeError "count")
  end.

(** [load_user], the [user_loader] callback: any missing attribute raises
    inside the [try] and the callback returns [None]. *)
Definition load_user (st : State) (clock : string) (uid : string) : option User :=
  user_data ← get_item (users st) uid;
  a_user_id ← get_S user_data "user_id";
  a_display_name ← get_S user_data "display_name";
  a_user_name ← get_S user_data "user_name";
  a_furigana ← get_S user_data "furigana";
  a_email ← get_S user_data "email";
  a_password ← get_S user_data "password";
  a_gender ← get_S user_data "gender";
  a_date_of_birth ← get_S user_data "date_of_birth";
  a_post_code ← get_S user_data "post_code";
  a_address ← get_S user_data "address";
  a_phone ← get_S user_data "phone";
  Some (User_init clock (AttrS a_user_id) (AttrS a_display_name)
          (AttrS a_user_name) (AttrS a_furigana) (AttrS a_email)
          (AttrS a_password) (AttrS a_gender) (AttrS a_date_of_birth)
          (AttrS a_post_code) (AttrS a_address) (AttrS a_phone)).

(** ** Flask-Login: the current user and [login_required] *)

(** The principal of a request: the user the [user_loader] returns for the
    id bound in the session, anonymous ([None]) otherwise. *)
Definition current_user (st : State) (req : Request) : option User :=
  session st ≫= load_user st (now req).

Definition login_message : string :=
  "このページにアクセスするにはログインが必要です。".

(** An anonymous request to a protected view is sent to the login view with
    the requested path as continuation. *)
Definition unauthorized (st : State) (req : Request) : Outcome :=
  {| response := Redirect (url_for "login" +:+ "?next=" +:+ path req);
     flashed := [(login_message, "message")];
     state_after := st |}.

Definition login_required (view : User → State → Request → Outcome)
    (st : State) (req : Request) : Outcome :=
  match current_user st req with
  | Some u => view u st req
  | None => unauthorized st req
  end.

(** [login_user(user)]: binds the session to [user.get_id()]. *)
Definition login_user (u : User) (st : State) : State :=
  set_session st (Some (get_id u)).

(** [logout_user()] *)
Definition logout_user (st : State) : State := set_session st None.

(** ** wtforms: validators and the validation chain *)

(** What calling one validator does. *)
Inductive verdict :=
| Accept                      (* returns normally *)
| Reject (m : string)         (* raise ValidationError(m) *)
| Halt (m : option string)    (* clears field.errors, raise StopValidation(m) *)
| Crash (e : exn).            (* any other exception *)

(** A validator sees the form object [F] and may update it (the login form
    keeps the record it found in [self.user]). *)
Definition validator (F : Type) : Type := F → verdict * F.

Section validators.
Context `{Libraries} {F : Type}.

Definition DataRequired (data : F → string) (message : string) : validator F :=
  λ f, (if truthy (data f) && truthy (str_strip (data f))
        then Accept else Halt (Some message), f).

Definition Optional (data : F → string) : validator F :=
  λ f, (if truthy (data f) && truthy (str_strip (data f))
        then Accept else Halt None, f).

Definition Email (data : F → string) (message : string) : validator F :=
  λ f, (if email_syntax_ok (data f) then Accept else Reject message, f).

(** [Length(min, max)]; [max = None] is the source's default [-1]. *)
Definition Length (data : F → string) (min : nat) (max : option nat)
    (message : string) : validator F :=
  λ f, let length := py_len (data f) in
       (if (min <=? length) && from_option (λ mx, length <=? mx) true max
        then Accept else Reject message, f).

(** [DataRequired] on a field whose data is an object, not a [str]. *)
Definition DataRequired_object {A} (data : F → option A) (message : string)
    : validator F :=
  λ f, (match data f with Some _ => Accept | None => Halt (Some message) end, f).

(** [SelectField.pre_validate]: the data must be one of the choices. *)
Definition ValidChoice (data : F → string) (choices : list string) : validator F :=
  λ f, (if bool_decide (data f ∈ choices) then Accept
        else Reject "Not a valid choice.", f).

Definition EqualTo (data other : F → string) (message : string) : validator F :=
  λ f, (if String.eqb (data f) (other f) then Accept else Reject message, f).

(** [try: body except Exception: handler], around a validator body:
    [ValidationError] and [StopValidation] are exceptions too. *)
Definition try_except_Exception (body : verdict * F)
    (handler : F → verdict * F) : verdict * F :=
  match body.1 with
  | Accept => body
  | _ => handler body.2
  end.

(** [Field._run_validation_chain] *)
Fixpoint run_validation_chain (chain : list (validator F)) (f : F)
    (errors : list string) : exn + (list string * F) :=
  match chain with
  | [] => inr (errors, f)
  | v :: chain' =>
      match v f with
      | (Accept, f') => run_validation_chain chain' f' errors
      | (Reject m, f') => run_validation_chain chain' f' (errors ++ [m])
      | (Halt m, f') => inr (from_option (λ m, [m]) [] m, f')
      | (Crash e, _) => inl e
      end
  end.

(** [Form.validate]: every field is validated, in declaration order;
    [form.errors] lists the fields that have errors. *)
Fixpoint validate_fields (fields : list (string * list (validator F))) (f : F)
    : exn + (FormErrors * F) :=
  match fields with
  | [] => inr ([], f)
  | (name, chain) :: fields' =>
      match run_validation_chain chain f [] with
      | inl e => inl e
      | inr (errs, f') =>
          match validate_fields fields' f' with
          | inl e => inl e
          | inr (rest, f'') =>
              inr (match errs with [] => rest | _ => (name, errs) :: rest end, f'')
          end
      end
  end.
End validators.

(** A validator that leaves the form object as it is. *)
Definition pure_validator {F : Type} (v : validator F) : Prop := ∀ f, (v f).2 = f.

(** A validator that raises nothing but validation errors. *)
Definition safe_validator {F : Type} (v : validator F) : Prop :=
  ∀ f e, (v f).1 ≠ Crash e.

(** ** The login form *)

Module LoginForm.
Record t := {
  email : string;
  password : string;
  remember : bool;
  user : option Item;    (* self.user *)
}.

(** [LoginForm(...)] on the submitted data; [self.user = None]. *)
Definition init (req : Request) : t :=
  {| email := form_get req "email";
     password := form_get req "password";
     remember := truthy (form_get req "remember");
     user := None |}.

Definition set_user (f : t) (u : Item) : t :=
  {| email := email f; password := password f; remember := remember f;
     user := Some u |}.

Definition msg_not_registered : string := "このメールアドレスは登録されていません".
Definition msg_login_error : string := "ログイン処理中にエラーが発生しました".
Definition msg_check_email_first : string := "先にメールアドレスを確認してください".
Definition msg_wrong_password : string := "パスワードが正しくありません".

Definition validate_email (st : State) : validator t :=
  λ f, try_except_Exception
         (match query_email_index (users st) (email f) with
          | [] => (Reject msg_not_registered, f)
          | item :: _ => (Accept, set_user f item)
          end)
         (λ f', (Reject msg_login_error, f')).

Definition validate_password `{Libraries} : validator t :=
  λ f, match user f with
       | None => (Reject msg_check_email_first, f)
       | Some u =>
           match u !! "password" with
           | None => (Crash (KeyError "password"), f)
           | Some pwhash =>
               match check_password pwhash (password f) with
               | inl e => (Crash e, f)
               | inr true => (Accept, f)
               | inr false => (Reject msg_wrong_password, f)
               end
           end
       end.

Definition fields `{Libraries} (st : State)
    : list (string * list (validator t)) :=
  [ ("email",
      [ DataRequired email "メールアドレスを入力してください";
        Email email "正しいメールアドレスの形式で入力してください";
        validate_email st ]);
    ("password",
      [ DataRequired password "パスワードを入力してください";
        validate_password ]) ].

Definition validate `{Libraries} (st : State) (f : t) : exn + (FormErrors * t) :=
  validate_fields (fields st) f.
End LoginForm.

(** ** The login handler *)

Definition msg_invalid_credentials : string :=
  "メールアドレスまたはパスワードが正しくありません。".
Definition msg_user_data_failed : string :=
  "ユーザーデータの読み込みに失敗しました。".
Definition msg_login_failed : string :=
  "ログイン処理中にエラーが発生しました。".
Definition msg_login_success : string := "ログインに成功しました。".

(** [is_safe_url(target)] *)
Definition is_safe_url `{Libraries} (req : Request) (target : string) : exn + bool :=
  ref_url ← urlparse (host_url req);
  joined ← urljoin (host_url req) target;
  test_url ← urlparse joined;
  mret (bool_decide (scheme test_url ∈ ["http"; "https"])
        && bool_decide (netloc ref_url = netloc test_url)).

(** The [User(...)] built in [login] from the row the table resource
    returns; [None] is the [KeyError] of a missing attribute. *)
Definition login_build_user (clock : string) (user_data : Item) : option User :=
  a_user_id ← user_data !! "user_id";
  a_display_name ← user_data !! "display_name";
  a_user_name ← user_data !! "user_name";
  a_furigana ← user_data !! "furigana";
  a_email ← user_data !! "email";
  a_password ← user_data !! "password";
  a_gender ← user_data !! "gender";
  a_date_of_birth ← user_data !! "date_of_birth";
  a_post_code ← user_data !! "post_code";
  a_address ← user_data !! "address";
  a_phone ← user_data !! "phone";
  Some (User_init clock a_user_id a_display_name a_user_name a_furigana
          a_email a_password a_gender a_date_of_birth a_post_code a_address
          a_phone).

Definition render_login (errors : FormErrors) (flashes : list (string * string))
    (st : State) : Outcome :=
  {| response := Render "login.html" (CtxForm errors);
     flashed := flashes; state_after := st |}.

(** The body of [if form.validate_on_submit():] in [login]; every exception
    raised in it reaches [except Exception], which flashes and falls through
    to the final [render_template]. *)
Definition login_submit `{Libraries} (st : State) (req : Request)
    (form : LoginForm.t) : Outcome :=
  match query_email_index (users st) (str_lower (LoginForm.email form)) with
  | [] => render_login [] [(msg_invalid_credentials, "error")] st
  | user_data :: _ =>
      match login_build_user (now req) user_data with
      | None => render_login [] [(msg_user_data_failed, "error")] st
      | Some user =>
          match check_password (password_hash user) (LoginForm.password form) with
          | inl _ => render_login [] [(msg_login_failed, "error")] st
          | inr false => render_login [] [(msg_invalid_credentials, "error")] st
          | inr true =>
              let st' := login_user user st in
              let flashes := [(msg_login_success, "success")] in
              let next_page := default "" (args req !! "next") in
              if truthy next_page then
                match is_safe_url req next_page with
                | inl _ =>
                    render_login [] (flashes ++ [(msg_login_failed, "error")]) st'
                | inr true =>
                    {| response := Redirect next_page;
                       flashed := flashes; state_after := st' |}
                | inr false =>
                    {| response := Redirect (url_for "index");
                       flashed := flashes; state_after := st' |}
                end
              else
                {| response := Redirect (url_for "index");
                   flashed := flashes; state_after := st' |}
          end
      end
  end.

(** [login] *)
Definition login `{Libraries} (st : State) (req : Request) : Outcome :=
  match current_user st req with
  | Some _ =>
      {| response := Redirect (url_for "index"); flashed := []; state_after := st |}
  | None =>
      let form := LoginForm.init req in
      match method req with
      | GET => render_login [] [] st
      | POST =>
          match LoginForm.validate st form with
          | inl e => {| response := Uncaught e; flashed := []; state_after := st |}
          | inr ([], form') => login_submit st req form'
          | inr (errors, _) => render_login errors [] st
          end
      end
  end.

(** ** Registration *)

Module RegistrationForm.
Record t := {
  organization : string;
  display_name : string;
  user_name : string;
  furigana : string;
  phone : string;
  post_code : string;
  address : string;
  email : string;
  email_confirm : string;
  password : string;
  pass_confirm : string;
  gender : string;
  date_of_birth : option string;
}.

Definition init `{Libraries} (req : Request) : t :=
  {| organization := default "uguis" (form req !! "organization");
     display_name := form_get req "display_name";
     user_name := form_get req "user_name";
     furigana := form_get req "furigana";
     phone := form_get req "phone";
     post_code := form_get req "post_code";
     address := form_get req "address";
     email := form_get req "email";
     email_confirm := form_get req "email_confirm";
     password := form_get req "password";
     pass_confirm := form_get req "pass_confirm";
     gender := form_get req "gender";
     date_of_birth := strptime_date (form_get req "date_of_birth") |}.

Definition msg_already_registered : string :=
  "入力されたメールアドレスは既に登録されています。".
Definition msg_email_check_error : string :=
  "メールアドレスの確認中にエラーが発生しました。".

(** [validate_email]: the [ValidationError] raised inside the [try] is
    itself caught by [except Exception]. *)
Definition validate_email (st : State) : validator t :=
  λ f, try_except_Exception
         (match query_email_index (users st) (email f) with
          | _ :: _ => (Reject msg_already_registered, f)
          | [] => (Accept, f)
          end)
         (λ f', (Reject msg_email_check_error, f')).

Definition label (field : string) : string :=
  if String.eqb field "organization" then "所属"
  else if String.eqb field "display_name" then "表示ネーム LINE名など"
  else if String.eqb field "user_name" then "ユーザー名"
  else if String.eqb field "furigana" then "フリガナ"
  else if String.eqb field "phone" then "電話番号"
  else if String.eqb field "post_code" then "郵便番号"
  else if String.eqb field "address" then "住所"
  else if String.eqb field "email" then "メールアドレス"
  else if String.eqb field "email_confirm" then "メールアドレス確認"
  else if String.eqb field "password" then "パスワード"
  else if String.eqb field "pass_confirm" then "パスワード(確認)"
  else if String.eqb field "gender" then "性別"
  else if String.eqb field "date_of_birth" then "生年月日"
  else "登録".

Definition fields `{Libraries} (st : State)
    : list (string * list (validator t)) :=
  [ ("organization",
      [ ValidChoice organization ["uguis"; "other"];
        DataRequired organization "所属を選択してください" ]);
    ("display_name",
      [ DataRequired display_name "表示名を入力してください";
        Length display_name 3 (Some 30)
          "表示名は3文字以上30文字以下で入力してください" ]);
    ("user_name", [ DataRequired user_name "This field is required." ]);
    ("furigana", [ DataRequired furigana "This field is required." ]);
    ("phone",
      [ DataRequired phone "This field is required.";
        Length phone 10 (Some 15) "正しい電話番号を入力してください" ]);
    ("post_code",
      [ DataRequired post_code "This field is required.";
        Length post_code 7 (Some 7) "ハイフン無しで７桁で入力してください" ]);
    ("address",
      [ DataRequired address "This field is required.";
        Length address 0 (Some 100) "住所は100文字以内で入力してください" ]);
    ("email",
      [ DataRequired email "This field is required.";
        Email email "正しいメールアドレスを入力してください";
        validate_email st ]);
    ("email_confirm",
      [ DataRequired email_confirm "This field is required.";
        Email email_confirm "Invalid email address.";
        EqualTo email_confirm email "メールアドレスが一致していません" ]);
    ("password",
      [ DataRequired password "This field is required.";
        Length password 8 None "パスワードは8文字以上で入力してください";
        EqualTo password pass_confirm "パスワードが一致していません" ]);
    ("pass_confirm", [ DataRequired pass_confirm "This field is required." ]);
    ("gender",
      [ ValidChoice gender [""; "male"; "female"; "other"];
        DataRequired gender "This field is required." ]);
    ("date_of_birth",
      [ DataRequired_object date_of_birth "This field is required." ]) ].

Definition validate `{Libraries} (st : State) (f : t) : exn + (FormErrors * t) :=
  validate_fields (fields st) f.
End RegistrationForm.

Definition msg_signup_duplicate : string :=
  "このメールアドレスは既に登録されています。".
Definition msg_signup_success : string :=
  "アカウントが作成されました！ログインしてください。".

(** The item [signup] writes. *)
Definition signup_item `{Libraries} (req : Request) (f : RegistrationForm.t) : Item :=
  list_to_map
    [ ("user_id", AttrS (uuid4 req));
      ("organization", AttrS (RegistrationForm.organization f));
      ("address", AttrS (RegistrationForm.address f));
      ("administrator", AttrBOOL false);
      ("created_at", AttrS (now req));
      ("date_of_birth", AttrS (default "" (RegistrationForm.date_of_birth f)));
      ("display_name", AttrS (RegistrationForm.display_name f));
      ("email", AttrS (RegistrationForm.email f));
      ("furigana", AttrS (RegistrationForm.furigana f));
      ("gender", AttrS (RegistrationForm.gender f));
      ("password",
        AttrS (generate_password_hash "pbkdf2:sha256" (salt req)
                 (RegistrationForm.password f)));
      ("phone", AttrS (RegistrationForm.phone f));
      ("post_code", AttrS (RegistrationForm.post_code f));
      ("updated_at", AttrS (now req));
      ("user_name", AttrS (RegistrationForm.user_name f)) ].

(** [except ClientError] of [signup]: the message flashed for an error code. *)
Definition signup_client_error_message (code : string) : string :=
  if String.eqb code "ConditionalCheckFailedException"
  then "このメールアドレスは既に登録されています。"
  else if String.eqb code "ValidationException" then "入力データが無効です。"
  else if String.eqb code "ResourceNotFoundException"
  then "システムエラーが発生しました。"
  else "アカウント作成中にエラーが発生しました。".

(** The body of [if form.validate_on_submit():] in [signup]. *)
Definition signup_submit `{Libraries} (st : State) (req : Request)
    (f : RegistrationForm.t) : Outcome :=
  match query_email_index (users st) (RegistrationForm.email f) with
  | _ :: _ =>
      {| response := Redirect (url_for "signup");
         flashed := [(msg_signup_duplicate, "error")]; state_after := st |}
  | [] =>
      match put_item (users st) (signup_item req f) with
      | inr t' =>
          {| response := Redirect (url_for "login");
             flashed := [(msg_signup_success, "success")];
             state_after := set_users st t' |}
      | inl (ClientError code) =>
          {| response := Redirect (url_for "signup");
             flashed := [(signup_client_error_message code, "error")];
             state_after := st |}
      | inl _ =>
          {| response := Redirect (url_for "signup");
             flashed :=
               [("予期せぬエラーが発生しました。時間をおいて再度お試しください。",
                 "error")];
             state_after := st |}
      end
  end.

(** [flash(f'{form[field].label.text}: {error}', 'error')] for every error. *)
Definition flash_form_errors (label : string → string) (errors : FormErrors)
    : list (string * string) :=
  flat_map (λ fe, (λ error, (label fe.1 +:+ ": " +:+ error, "error")) <$> fe.2)
    errors.

(** [signup] *)
Definition signup `{Libraries} (st : State) (req : Request) : Outcome :=
  let f := RegistrationForm.init req in
  match method req with
  | GET =>
      {| response := Render "signup.html" (CtxForm []);
         flashed := []; state_after := st |}
  | POST =>
      match RegistrationForm.validate st f with
      | inl e => {| response := Uncaught e; flashed := []; state_after := st |}
      | inr ([], f') => signup_submit st req f'
      | inr (errors, _) =>
          {| response := Render "signup.html" (CtxForm errors);
             flashed := flash_form_errors RegistrationForm.label errors;
             state_after := st |}
      end
  end.

(** ** Member update *)

(** A positional argument of a Python call. *)
Inductive PyArg :=
| ArgStr (s : string)
| ArgTable (t : Table).

Module UpdateUserForm.
Record t := {
  id : PyArg;       (* self.id *)
  table : PyArg;    (* self.table *)
  organization : string;
  display_name : string;
  user_name : string;
  furigana : string;
  phone : string;
  post_code : string;
  address : string;
  email : string;
  password : string;
  pass_confirm : string;
  gender : string;
  date_of_birth : option string;
}.

(** [__init__(self, user_id, dynamodb_table, *args, **kwargs)]: both
    parameters are required; further positional arguments go to [*args]. *)
Definition init `{Libraries} (positional : list PyArg) (req : Request) : exn + t :=
  match positional with
  | [] =>
      inl (TypeError
             "__init__() missing 2 required positional arguments: 'user_id' and 'dynamodb_table'")
  | [_] =>
      inl (TypeError
             "__init__() missing 1 required positional argument: 'dynamodb_table'")
  | a_user_id :: a_dynamodb_table :: _ =>
      inr {| id := a_user_id; table := a_dynamodb_table;
             organization := form_get req "organization";
             display_name := form_get req "display_name";
             user_name := form_get req "user_name";
             furigana := form_get req "furigana";
             phone := form_get req "phone";
             post_code := form_get req "post_code";
             address := form_get req "address";
             email := form_get req "email";
             password := form_get req "password";
             pass_confirm := form_get req "pass_confirm";
             gender := form_get req "gender";
             date_of_birth := strptime_date (form_get req "date_of_birth") |}
  end.

Definition msg_email_in_use : string := "このメールアドレスは既に使用されています。".

(** [item['user_id'] == self.id] *)
Definition same_id (v : option AttributeValue) (a : PyArg) : bool :=
  match v, a with
  | Some (AttrS s), ArgStr s' => String.eqb s s'
  | _, _ => false
  end.

(** [validate_email]: rejects when a row other than [self.id] holds the
    email; only [ClientError] is caught here. *)
Definition validate_email : validator t :=
  λ f, match table f with
       | ArgTable tbl =>
           if forallb
                (λ item, same_id (item !! "user_id") (id f))
                (query_email_index tbl (email f))
           then (Accept, f) else (Reject msg_email_in_use, f)
       | ArgStr _ => (Crash (AttributeError "query"), f)
       end.

Definition fields `{Libraries} : list (string * list (validator t)) :=
  [ ("organization",
      [ ValidChoice organization ["uguis"; "other"];
        DataRequired organization "所属を選択してください" ]);
    ("display_name",
      [ DataRequired display_name "This field is required.";
        Length display_name 3 (Some 30)
          "Field must be between 3 and 30 characters long." ]);
    ("user_name", [ DataRequired user_name "This field is required." ]);
    ("furigana", [ DataRequired furigana "This field is required." ]);
    ("phone",
      [ DataRequired phone "This field is required.";
        Length phone 10 (Some 15) "正しい電話番号を入力してください" ]);
    ("post_code",
      [ DataRequired post_code "This field is required.";
        Length post_code 7 (Some 7) "ハイフン無しで７桁で入力してください" ]);
    ("address",
      [ DataRequired address "This field is required.";
        Length address 0 (Some 100) "住所は100文字以内で入力してください" ]);
    ("email",
      [ DataRequired email "This field is required.";
        Email email "正しいメールアドレスを入力してください";
        validate_email ]);
    ("password",
      [ Optional password;
        Length password 8 None "パスワードは8文字以上で入力してください";
        EqualTo password pass_confirm "パスワードが一致していません" ]);
    ("gender",
      [ ValidChoice gender [""; "male"; "female"; "other"];
        DataRequired gender "This field is required." ]);
    ("date_of_birth",
      [ DataRequired_object date_of_birth "This field is required." ]) ].

Definition validate `{Libraries} (f : t) : exn + (FormErrors * t) :=
  validate_fields fields f.
End UpdateUserForm.

Definition msg_account_updated : string := "ユーザーアカウントが更新されました".

(** The [SET] assignments [account] builds from the validated form. *)
Definition account_assignments `{Libraries} (req : Request) (f : UpdateUserForm.t)
    : list (string * AttributeValue) :=
  (if truthy (UpdateUserForm.user_name f)
   then [("user_name", AttrS (UpdateUserForm.user_name f))] else [])
  ++ (if truthy (UpdateUserForm.email f)
      then [("email", AttrS (UpdateUserForm.email f))] else [])
  ++ (if truthy (UpdateUserForm.password f)
      then [("password",
             AttrS (generate_password_hash "pbkdf2:sha256" (salt req)
                      (UpdateUserForm.password f)))]
      else [])
  ++ [("updated_at", AttrS (now req))].

(** What [account] does once it holds a form object. *)
Definition account_with_form `{Libraries} (user_id : string) (user : Item)
    (f : UpdateUserForm.t) (st : State) (req : Request) : Outcome :=
  match method req with
  | POST =>
      match UpdateUserForm.validate f with
      | inl e => {| response := Uncaught e; flashed := []; state_after := st |}
      | inr ([], f') =>
          {| response := Redirect (url_for "user_maintenance");
             flashed := [(msg_account_updated, "success")];
             state_after :=
               set_users st (update_item (users st) user_id (account_assignments req f')) |}
      | inr (errors, _) =>
          {| response := Render "account.html" (CtxForm errors);
             flashed := []; state_after := st |}
      end
  | GET =>
      {| response :=
           Render "account.html"
             (CtxPrefilled
                [("user_name", default "" (get_S user "user_name"));
                 ("email", default "" (get_S user "email"))] []);
         flashed := []; state_after := st |}
  end.

(** [account(user_id)], for the logged-in user [cu].  [abort] raises an
    HTTP exception and [UpdateUserForm(user_id)] a [TypeError]; neither is a
    [ClientError], so both leave the handler. *)
Definition account `{Libraries} (user_id : string) (cu : User) (st : State)
    (req : Request) : Outcome :=
  match get_item (users st) user_id with
  | None => {| response := Abort 404; flashed := []; state_after := st |}
  | Some user =>
      match get_S user "user_id" with
      | None =>
          {| response := Uncaught (KeyError "user_id"); flashed := [];
             state_after := st |}
      | Some owner =>
          if negb (String.eqb owner (get_id cu)) && negb (is_administrator cu)
          then {| response := Abort 403; flashed := []; state_after := st |}
          else
            match UpdateUserForm.init [ArgStr user_id] req with
            | inl e => {| response := Uncaught e; flashed := []; state_after := st |}
            | inr f => account_with_form user_id user f st req
            end
      end
  end.

(** ** Posts *)

Definition msg_post_not_found : string := "投稿が見つかりません".
Definition msg_no_permission : string := "編集権限がありません".
Definition msg_post_updated : string := "投稿が更新されました".

(** The [SET] assignments [update] builds from [request.form]. *)
Definition update_assignments (req : Request) : list (string * AttributeValue) :=
  (if truthy (form_get req "title")
   then [("title", AttrS (form_get req "title"))] else [])
  ++ (if truthy (form_get req "body")
      then [("body", AttrS (form_get req "body"))] else [])
  ++ (if truthy (form_get req "category_id")
      then [("category_id", AttrS (form_get req "category_id"))] else [])
  ++ [("updated_at", AttrS (now req))].

(** [update(post_id)], for the logged-in user [cu].  Reading
    [app.posts_table_name] raises [AttributeError] when the attribute was
    never set. *)
Definition update (post_id : string) (cu : User) (st : State) (req : Request)
    : Outcome :=
  match posts_table_name st with
  | None =>
      {| response := Uncaught (AttributeError "posts_table_name");
         flashed := []; state_after := st |}
  | Some _ =>
      match method req with
      | GET =>
          match get_item (posts st) post_id with
          | None =>
              {| response := Redirect (url_for "index");
                 flashed := [(msg_post_not_found, "error")]; state_after := st |}
          | Some post =>
              if negb (bool_decide (get_S post "user_id" = Some (get_id cu)))
                 && negb (is_administrator cu)
              then
                {| response := Redirect (url_for "index");
                   flashed := [(msg_no_permission, "error")]; state_after := st |}
              else
                {| response := Render "update.html" (CtxPost post);
                   flashed := []; state_after := st |}
          end
      | POST =>
          {| response := Redirect (url_for "index");
             flashed := [(msg_post_updated, "success")];
             state_after :=
               set_posts st (update_item (posts st) post_id (update_assignments req)) |}
      end
  end.

(** The names bound in the module namespace of [app.py]: its imports and
    its top-level definitions. *)
Definition module_globals : list string :=
  [ "Flask"; "FlaskForm"; "render_template"; "request"; "redirect"; "url_for";
    "flash"; "abort"; "session"; "UserMixin"; "LoginManager"; "login_user";
    "logout_user"; "login_required"; "current_user"; "generate_password_hash";
    "check_password_hash"; "ValidationError"; "StringField"; "PasswordField";
    "SubmitField"; "SelectField"; "DateField"; "BooleanField"; "DataRequired";
    "Email"; "EqualTo"; "Length"; "Optional"; "pytz"; "os"; "boto3";
    "secure_filename"; "uuid"; "datetime"; "date"; "io"; "Image";
    "relativedelta"; "ClientError"; "init_tables"; "logging"; "time"; "random";
    "urlparse"; "urljoin"; "load_dotenv"; "logger"; "app"; "login_manager";
    "create_app"; "tokyo_time"; "load_user"; "RegistrationForm";
    "UpdateUserForm"; "User"; "get_user_from_dynamodb"; "LoginForm"; "index";
    "signup"; "login"; "is_safe_url"; "logout"; "user_maintenance"; "account";
    "update"; "delete" ].

(** Evaluating a global name: [NameError] when the module does not bind it. *)
Definition load_global (name : string) : exn + unit :=
  if bool_decide (name ∈ module_globals) then inr () else inl (NameError name).

(** Modelled from the spec: the object-relational calls of [delete]
    ([Post.query.get], [db.session.delete], [db.session.commit]) belong to no
    module the source imports; the spec's [deleteById] removes the record
    with that primary key. *)
Definition delete_by_id (t : Table) (k : string) : Table :=
  {| key_name := key_name t; rows := base.delete k (rows t) |}.

(** [delete(id)], for the logged-in user [cu]: the names [Post] and [db] are
    evaluated in the module namespace before anything is deleted. *)
Definition delete (id : nat) (cu : User) (st : State) (req : Request) : Outcome :=
  match load_global "Post" ≫= (λ _, load_global "db") with
  | inl e => {| response := Uncaught e; flashed := []; state_after := st |}
  | inr _ =>
      {| response := Redirect "/"; flashed := [];
         state_after := set_posts st (delete_by_id (posts st) (pretty id)) |}
  end.

(** ** The remaining views, and the routes *)

Definition index (cu : User) (st : State) (req : Request) : Outcome :=
  {| response := Render "index.html" (CtxPosts []); flashed := [];
     state_after := st |}.

Definition logout (cu : User) (st : State) (req : Request) : Outcome :=
  {| response := Redirect "/login"; flashed := []; state_after := logout_user st |}.

Definition user_maintenance (cu : User) (st : State) (req : Request) : Outcome :=
  {| response := Render "user_maintenance.html" (CtxUsers (scan (users st)));
     flashed := []; state_after := st |}.

(** The views as registered: [@app.route(...)] over [@login_required]. *)
Definition index_view : State → Request → Outcome := login_required index.
Definition logout_view : State → Request → Outcome := login_required logout.
Definition user_maintenance_view : State → Request → Outcome :=
  login_required user_maintenance.
Definition account_view `{Libraries} (user_id : string)
    : State → Request → Outcome :=
  login_required (account user_id).
Definition update_view (post_id : string) : State → Request → Outcome :=
  login_required (update post_id).
Definition delete_view (id : nat) : State → Request → Outcome :=
  login_required (delete id).

(** ** A concrete instance of the libraries

    Used to run the handlers on explicit requests.  The string functions are
    the ASCII ones; the password digest is a stand-in (the password itself,
    behind the method and the salt); the URL functions follow [urllib.parse]
    on references whose base path is the root. *)

Module Demo.
Definition lower_char (c : Ascii.ascii) : Ascii.ascii :=
  let n := Ascii.nat_of_ascii c in
  if (65 <=? n) && (n <=? 90) then Ascii.ascii_of_nat (n + 32) else c.

Fixpoint lower (s : string) : string :=
  match s with
  | EmptyString => EmptyString
  | String c s' => String (lower_char c) (lower s')
  end.

Definition is_space (c : Ascii.ascii) : bool :=
  let n := Ascii.nat_of_ascii c in
  ((9 <=? n) && (n <=? 13)) || ((28 <=? n) && (n <=? 32)).

Fixpoint lstrip (s : string) : string :=
  match s with
  | String c s' => if is_space c then lstrip s' else s
  | EmptyString => EmptyString
  end.

Fixpoint rstrip (s : string) : string :=
  match s with
  | EmptyString => EmptyString
  | String c s' =>
      match rstrip s' with
      | EmptyString => if is_space c then EmptyString else String c EmptyString
      | r => String c r
      end
  end.

Definition strip (s : string) : string := rstrip (lstrip s).

(** [s.partition(sep)] for a one-character separator: the text before the
    first [sep] and the text after it. *)
Fixpoint partition (sep : Ascii.ascii) (s : string) : option (string * string) :=
  match s with
  | EmptyString => None
  | String c s' =>
      if Ascii.eqb c sep then Some (EmptyString, s')
      else (λ p, (String c p.1, p.2)) <$> partition sep s'
  end.

Definition hash (method salt password : string) : string :=
  method +:+ "$" +:+ salt +:+ "$" +:+ password.

(** [False] for a hash with fewer than two [$]; else compares the digest. *)
Definition check (pwhash password : string) : exn + bool :=
  match partition "$" pwhash with
  | Some (_, rest) =>
      match partition "$" rest with
      | Some (_, digest) => inr (String.eqb digest password)
      | None => inr false
      end
  | None => inr false
  end.

Definition email_ok (s : string) : bool :=
  match partition "@" s with
  | Some (local_part, domain) => truthy local_part && truthy domain
  | None => false
  end.

(** Accepts [YYYY-MM-DD] by its shape. *)
Definition parse_date (s : string) : option string :=
  if (String.length s =? 10)
     && bool_decide (String.get 4 s = Some "-"%char)
     && bool_decide (String.get 7 s = Some "-"%char)
  then Some s else None.

Definition is_scheme_char (c : Ascii.ascii) : bool :=
  let n := Ascii.nat_of_ascii c in
  ((97 <=? n) && (n <=? 122)) || ((65 <=? n) && (n <=? 90))
  || ((48 <=? n) && (n <=? 57)) || (n =? 43) || (n =? 45) || (n =? 46).

Definition is_alpha (c : Ascii.ascii) : bool :=
  let n := Ascii.nat_of_ascii c in
  ((97 <=? n) && (n <=? 122)) || ((65 <=? n) && (n <=? 90)).

Fixpoint all_chars (p : Ascii.ascii → bool) (s : string) : bool :=
  match s with
  | EmptyString => true
  | String c s' => p c && all_chars p s'
  end.

(** The scheme of a URL and what follows its colon. *)
Definition split_scheme (url : string) : string * string :=
  match partition ":" url with
  | Some (String c pre, rest) =>
      if is_alpha c && all_chars is_scheme_char pre
      then (lower (String c pre), rest) else ("", url)
  | _ => ("", url)
  end.

(** The text up to the first of [/], [?] and [#]. *)
Fixpoint until_delimiter (s : string) : string :=
  match s with
  | EmptyString => EmptyString
  | String c s' =>
      if Ascii.eqb c "/" || Ascii.eqb c "?" || Ascii.eqb c "#" then EmptyString
      else String c (until_delimiter s')
  end.

Definition split_netloc (rest : string) : string :=
  match rest with
  | String "/" (String "/" after) => until_delimiter after
  | _ => ""
  end.

Definition parse (url : string) : exn + ParseResult :=
  let (sch, rest) := split_scheme url in
  inr {| scheme := sch; netloc := split_netloc rest |}.

Definition uses_relative : list string :=
  [ ""; "ftp"; "http"; "gopher"; "nntp"; "imap"; "wais"; "file"; "https";
    "shttp"; "mms"; "prospero"; "rtsp"; "rtspu"; "sftp"; "svn"; "svn+ssh";
    "ws"; "wss" ].

(** [urljoin(base, url)]: a reference with another scheme, or with a
    network location of its own, is returned as it is; any other reference
    is resolved on the base's scheme and network location. *)
Definition join (base url : string) : exn + string :=
  if negb (truthy base) then inr url
  else if negb (truthy url) then inr base
  else
    let (bscheme, brest) := split_scheme base in
    let (uscheme0, urest) := split_scheme url in
    let uscheme := if truthy uscheme0 then uscheme0 else bscheme in
    if negb (String.eqb uscheme bscheme)
       || negb (bool_decide (uscheme ∈ uses_relative))
    then inr url
    else if truthy (split_netloc urest) then inr url
    else
      inr (bscheme +:+ "://" +:+ split_netloc brest
           +:+ (match urest with
                | String "/" _ => urest
                | _ => "/" +:+ urest
                end)).

#[export] Instance libraries : Libraries :=
  {| str_lower := lower;
     str_strip := strip;
     generate_password_hash := hash;
     strptime_date := parse_date;
     check_password_hash := check;
     email_syntax_ok := email_ok;
     urlparse := parse;
     urljoin := join |}.

(** A stored member. *)
Definition member (name mail password : string) (admin : bool) : Item :=
  list_to_map
    [ ("organization", AttrS "uguis"); ("address", AttrS "Tokyo");
      ("administrator", AttrBOOL admin);
      ("created_at", AttrS "2024-01-01T00:00:00");
      ("date_of_birth", AttrS "1990-01-01"); ("display_name", AttrS name);
      ("email", AttrS mail); ("furigana", AttrS name);
      ("gender", AttrS "other");
      ("password", AttrS (hash "pbkdf2:sha256" "salt" password));
      ("phone", AttrS "0312345678"); ("post_code", AttrS "1000001");
      ("updated_at", AttrS "2024-01-01T00:00:00"); ("user_name", AttrS name) ].

Definition post (owner title body : string) : Item :=
  list_to_map
    [ ("user_id", AttrS owner); ("title", AttrS title); ("body", AttrS body);
      ("category_id", AttrS "1");
      ("created_at", AttrS "2024-01-01T00:00:00");
      ("updated_at", AttrS "2024-01-01T00:00:00") ].

(** Three members, the third an administrator, and one post of the first. *)
Definition state (bound : option string) : State :=
  {| user_rows :=
       list_to_map
         [ ("U1", member "alice" "a@example.com" "password123" false);
           ("U2", member "bobby" "b@example.com" "hunter2hunter2" false);
           ("A1", member "admin" "root@example.com" "adminadmin" true) ];
     post_rows := list_to_map [ ("P1", post "U1" "old title" "old body") ];
     posts_table_name := Some "dev-posts";
     session := bound |}.

(** The principal the [user_loader] returns for a member id. *)
Definition principal (uid : string) (admin : bool) : User :=
  {| user_id := AttrS uid; display_name := AttrS uid; user_name := AttrS uid;
     furigana := AttrS uid; email := AttrS (uid +:+ "@example.com");
     password_hash := AttrS (hash "pbkdf2:sha256" "salt" "password123");
     gender := AttrS "other"; date_of_birth := AttrS "1990-01-01";
     post_code := AttrS "1000001"; address := AttrS "Tokyo";
     phone := AttrS "0312345678"; organization := "uguis";
     administrator := admin; created_at := "2024-06-01T12:00:00";
     updated_at := "2024-06-01T12:00:00" |}.

Definition request (m : Method) (p : string) (fields query : list (string * string))
    : Request :=
  {| method := m; path := p; form := list_to_map fields;
     args := list_to_map query; host_url := "https://example.com/";
     now := "2024-06-01T12:00:00"; uuid4 := "U-new"; salt := "salt2" |}.
(** A complete registration submission for the given email. *)
Definition registration (mail : string) : list (string * string) :=
  [ ("organization", "uguis"); ("display_name", "carol"); ("user_name", "carol");
    ("furigana", "carol"); ("phone", "0312345678"); ("post_code", "1000001");
    ("address", "Tokyo"); ("email", mail); ("email_confirm", mail);
    ("password", "password123"); ("pass_confirm", "password123");
    ("gender", "female"); ("date_of_birth", "1990-01-01") ].

End Demo.

(** ** The URL map *)

(** The routes of the application, with their URL arguments converted. *)
Inductive Route :=
| RIndex                          (* "/" *)
| RSignup                         (* "/signup" *)
| RLogin                          (* "/login" *)
| RLogout                         (* "/logout" *)
| RUserMaintenance                (* "/user_maintenance" *)
| RAccount (user_id : string)     (* "/<string:user_id>/account" *)
| RUpdate (post_id : string)      (* "/<string:post_id>/update" *)
| RDelete (id : nat).             (* "/<int:id>/delete" *)

(** The [methods] of each [@app.route]; a route without the argument takes
    [GET] only. *)
Definition allowed_methods (r : Route) : list Method :=
  match r with
  | RIndex | RLogout | RDelete _ => [GET]
  | RSignup | RLogin | RUserMaintenance | RAccount _ | RUpdate _ => [GET; POST]
  end.

(** Serving one request: a method the route does not take is answered with
    405 before any view runs. *)
Definition dispatch `{Libraries} (r : Route) (st : State) (req : Request)
    : Outcome :=
  if bool_decide (method req ∈ allowed_methods r) then
    match r with
    | RIndex => index_view st req
    | RSignup => signup st req
    | RLogin => login st req
    | RLogout => logout_view st req
    | RUserMaintenance => user_maintenance_view st req
    | RAccount user_id => account_view user_id st req
    | RUpdate post_id => update_view post_id st req
    | RDelete id => delete_view id st req
    end
  else {| response := Abort 405; flashed := []; state_after := st |}.

(** Serving a sequence of requests, each on the state the previous one left. *)
Fixpoint serve `{Libraries} (requests : list (Route * Request)) (st : State)
    : State :=
  match requests with
  | [] => st
  | (r, req) :: requests' => serve requests' (state_after (dispatch r st req))
  end.

(** The routes behind [@login_required]. *)
Definition protected (r : Route) : bool :=
  match r with
  | RSignup | RLogin => false
  | _ => true
  end.

(** No two rows of the table hold the same email. *)
Definition emails_unique (t : Table) : Prop :=
  ∀ k1 k2 r1 r2 e,
    rows t !! k1 = Some r1 → rows t !! k2 = Some r2 →
    r1 !! "email" = Some (AttrS e) → r2 !! "email" = Some (AttrS e) → k1 = k2.

(** ** Start-up: [create_app] *)

(** What [create_app] stores on the application object and its
    configuration. *)
Record AppConfig := {
  SECRET_KEY : string;
  S3_BUCKET : option string;
  S3_LOCATION : string;
  table_name : string;
  login_view : string;
  app_login_message : string;
}.

Definition required_env_vars : list string :=
  ["AWS_ACCESS_KEY_ID"; "AWS_SECRET_ACCESS_KEY"; "S3_BUCKET"].

(** [not os.getenv(var)]: unset or empty. *)
Definition env_missing (env : gmap string string) (var : string) : bool :=
  negb (truthy (default "" (env !! var))).

(** [sep.join(l)] *)
Fixpoint join (sep : string) (l : list string) : string :=
  match l with
  | [] => ""
  | [x] => x
  | x :: l' => x +:+ sep +:+ join sep l'
  end.

(** [create_app()], on the environment [env].  [urandom] is the value of
    [os.urandom(24)] and [init_tables] the outcome of the call to
    [init_db.init_tables]; every exception is logged and raised again. *)
Definition create_app (env : gmap string string) (urandom : string)
    (init_tables : exn + unit) : exn + AppConfig :=
  let aws_region := default "ap-northeast-1" (env !! "AWS_REGION") in
  let bucket := env !! "S3_BUCKET" in
  let missing_vars := filter (λ var, env_missing env var = true) required_env_vars in
  match missing_vars with
  | _ :: _ =>
      inl (ValueError ("Missing required environment variables: "
                       +:+ join ", " missing_vars))
  | [] =>
      _ ← init_tables;
      mret {| SECRET_KEY := default urandom (env !! "SECRET_KEY");
              S3_BUCKET := bucket;
              S3_LOCATION :=
                "https://" +:+ default "None" bucket +:+ ".s3." +:+ aws_region
                +:+ ".amazonaws.com/";
              table_name := default "dev" (env !! "ENVIRONMENT") +:+ "-users";
              login_view := "login";
              app_login_message := login_message |}
  end.

(** ** What the forms accept *)

(** The validator lets the form through. *)
Definition accepts {F : Type} (v : validator F) (f : F) : Prop := (v f).1 = Accept.

(** A validator that never stops the chain without a message. *)
Definition strict_validator {F : Type} (v : validator F) : Prop :=
  ∀ f, (v f).1 ≠ Halt None.

(** [DataRequired] on a [str]: not empty, and not only white space. *)
Definition required `{Libraries} (s : string) : bool :=
  truthy s && truthy (str_strip s).

(** The submissions the registration form lets through, field by field. *)
Record RegistrationForm_accepted `{Libraries} (st : State)
    (f : RegistrationForm.t) : Prop := {
  acc_organization :
    RegistrationForm.organization f ∈ ["uguis"; "other"]
    ∧ required (RegistrationForm.organization f) = true;
  acc_display_name :
    required (RegistrationForm.display_name f) = true
    ∧ 3 ≤ py_len (RegistrationForm.display_name f) ≤ 30;
  acc_user_name : required (RegistrationForm.user_name f) = true;
  acc_furigana : required (RegistrationForm.furigana f) = true;
  acc_phone :
    required (RegistrationForm.phone f) = true
    ∧ 10 ≤ py_len (RegistrationForm.phone f) ≤ 15;
  acc_post_code :
    required (RegistrationForm.post_code f) = true
    ∧ py_len (RegistrationForm.post_code f) = 7;
  acc_address :
    required (RegistrationForm.address f) = true
    ∧ py_len (RegistrationForm.address f) ≤ 100;
  acc_email :
    required (RegistrationForm.email f) = true
    ∧ email_syntax_ok (RegistrationForm.email f) = true
    ∧ query_email_index (users st) (RegistrationForm.email f) = [];
  acc_email_confirm :
    required (RegistrationForm.email_confirm f) = true
    ∧ email_syntax_ok (RegistrationForm.email_confirm f) = true
    ∧ RegistrationForm.email_confirm f = RegistrationForm.email f;
  acc_password :
    required (RegistrationForm.password f) = true
    ∧ 8 ≤ py_len (RegistrationForm.password f)
    ∧ RegistrationForm.password f = RegistrationForm.pass_confirm f;
  acc_pass_confirm : required (RegistrationForm.pass_confirm f) = true;
  acc_gender :
    RegistrationForm.gender f ∈ [""; "male"; "female"; "other"]
    ∧ required (RegistrationForm.gender f) = true;
  acc_date_of_birth : is_Some (RegistrationForm.date_of_birth f);
}.

(** * Properties *)

(** ** The store *)

Lemma get_item_key (t : Table) (k : string) (it : Item) :
  get_item t k = Some it → it !! key_name t = Some (AttrS k).
Proof.
  unfold get_item, read_row. intros Hget.
  destruct (rows t !! k) as [r|]; simplify_eq/=.
  apply lookup_insert_eq.
Qed.

Lemma users_get_item_user_id (st : State) (k : string) (it : Item) :
  get_item (users st) k = Some it → get_S it "user_id" = Some k.
Proof.
  intros Hget. apply get_item_key in Hget. simpl in Hget.
  unfold get_S. by rewrite Hget.
Qed.

Lemma get_item_None (t : Table) (k : string) :
  get_item t k = None ↔ rows t !! k = None.
Proof.
  unfold get_item. destruct (rows t !! k); simpl; split; congruence.
Qed.

(** A row returned by the email index is a stored row that holds the email. *)
Lemma elem_of_query_email_index (t : Table) (e : string) (it : Item) :
  it ∈ query_email_index t e ↔
  ∃ k r, rows t !! k = Some r ∧ it = read_row t k r ∧ it !! "email" = Some (AttrS e).
Proof.
  unfold query_email_index, scan.
  rewrite list_elem_of_filter, list_elem_of_fmap. split.
  - intros (Hemail & [k r] & -> & Hin). apply elem_of_map_to_list in Hin.
    by exists k, r.
  - intros (k & r & Hrow & -> & Hemail). split; [done|].
    exists (k, r). split; [done|]. by apply elem_of_map_to_list.
Qed.

Lemma query_email_index_nil (t : Table) (e : string) :
  query_email_index t e = [] ↔
  ∀ k r, rows t !! k = Some r → read_row t k r !! "email" ≠ Some (AttrS e).
Proof.
  split.
  - intros Hnil k r Hrow Hemail.
    assert (read_row t k r ∈ query_email_index t e) as Hin
      by (apply elem_of_query_email_index; eauto).
    rewrite Hnil in Hin. by apply not_elem_of_nil in Hin.
  - intros Hnone. destruct (query_email_index t e) as [|it l] eqn:Hq; [done|].
    assert (it ∈ query_email_index t e) as Hin by (rewrite Hq; left).
    apply elem_of_query_email_index in Hin as (k & r & Hrow & -> & Hemail).
    by destruct (Hnone k r Hrow).
Qed.

(** Attributes an update does not assign keep their value. *)
Lemma foldl_apply_set_frame (assignments : list (string * AttributeValue))
    (it : Item) (a : string) :
  a ∉ assignments.*1 → foldl apply_set it assignments !! a = it !! a.
Proof.
  revert it. induction assignments as [|[b v] l IH]; intros it Hnotin; [done|].
  simpl in *. apply not_elem_of_cons in Hnotin as [Hne Hl].
  rewrite IH by done. unfold apply_set. simpl. by rewrite lookup_insert_ne.
Qed.

Lemma update_item_other_row (t : Table) (k k' : string)
    (assignments : list (string * AttributeValue)) :
  k ≠ k' → get_item (update_item t k assignments) k' = get_item t k'.
Proof.
  intros Hne. unfold get_item, update_item, read_row. simpl.
  by rewrite lookup_insert_ne.
Qed.

Lemma update_item_frame (t : Table) (k : string)
    (assignments : list (string * AttributeValue)) (it : Item) (a : string) :
  get_item t k = Some it → a ∉ assignments.*1 →
  ∃ it', get_item (update_item t k assignments) k = Some it' ∧ it' !! a = it !! a.
Proof.
  unfold get_item, update_item, read_row. simpl. intros Hget Hnotin.
  rewrite lookup_insert_eq. simpl. eexists. split; [done|].
  destruct (rows t !! k) as [r|]; simplify_eq/=.
  destruct (decide (key_name t = a)) as [->|Hne].
  - by rewrite !lookup_insert_eq.
  - rewrite !lookup_insert_ne by done. by apply foldl_apply_set_frame.
Qed.

(** ** Form validation *)

Section validation.
Context `{Libraries} {F : Type}.
Implicit Types (f : F) (chain : list (validator F)).

Lemma run_validation_chain_pure chain f errors errors' f' :
  Forall pure_validator chain →
  run_validation_chain chain f errors = inr (errors', f') → f' = f.
Proof.
  intros Hpure. revert f errors.
  induction Hpure as [|v chain Hv _ IH]; intros f errors Hrun; simpl in Hrun.
  - congruence.
  - specialize (Hv f). destruct (v f) as [[| m | m | e] g]; simpl in Hv; subst g.
    + eauto.
    + eauto.
    + congruence.
    + done.
Qed.

Lemma run_validation_chain_total chain f errors :
  Forall pure_validator chain → Forall safe_validator chain →
  ∃ errors', run_validation_chain chain f errors = inr (errors', f).
Proof.
  intros Hpure. revert f errors.
  induction Hpure as [|v chain Hv _ IH]; intros f errors Hsafe; simpl.
  - eauto.
  - apply Forall_cons in Hsafe as [Hs Hsafe].
    specialize (Hv f). specialize (Hs f).
    destruct (v f) as [[| m | m | e] g]; simpl in *; subst g; eauto.
    by destruct (Hs e).
Qed.

Lemma validate_fields_nil_inv name chain fields f f'' :
  validate_fields ((name, chain) :: fields) f = inr ([], f'') →
  ∃ f', run_validation_chain chain f [] = inr ([], f')
        ∧ validate_fields fields f' = inr ([], f'').
Proof.
  simpl. intros Hvalid.
  destruct (run_validation_chain chain f []) as [e|[errs f']]; [done|].
  destruct (validate_fields fields f') as [e|[rest g]] eqn:Hrest; [done|].
  destruct errs; simplify_eq/=. by exists f'.
Qed.

Lemma validate_fields_total (fields : list (string * list (validator F))) f :
  Forall (λ field, Forall pure_validator field.2 ∧ Forall safe_validator field.2)
    fields →
  ∃ errors, validate_fields fields f = inr (errors, f).
Proof.
  induction 1 as [|[name chain] fields [Hpure Hsafe] _ [rest IH]]; simpl.
  - eauto.
  - destruct (run_validation_chain_total chain f [] Hpure Hsafe) as [errs ->].
    rewrite IH. eauto.
Qed.

Lemma DataRequired_pure (data : F → string) message : pure_validator (DataRequired data message).
Proof. by intros f. Qed.
Lemma DataRequired_safe (data : F → string) message : safe_validator (DataRequired data message).
Proof. intros f e. unfold DataRequired. simpl. by case_match. Qed.
Lemma DataRequired_object_pure {A} (data : F → option A) message :
  pure_validator (DataRequired_object data message).
Proof. by intros f. Qed.
Lemma DataRequired_object_safe {A} (data : F → option A) message :
  safe_validator (DataRequired_object data message).
Proof. intros f e. unfold DataRequired_object. simpl. by case_match. Qed.
Lemma Optional_pure (data : F → string) : pure_validator (Optional data).
Proof. by intros f. Qed.
Lemma Optional_safe (data : F → string) : safe_validator (Optional data).
Proof. intros f e. unfold Optional. simpl. by case_match. Qed.
Lemma Email_pure (data : F → string) message : pure_validator (Email data message).
Proof. by intros f. Qed.
Lemma Email_safe (data : F → string) message : safe_validator (Email data message).
Proof. intros f e. unfold Email. simpl. by case_match. Qed.
Lemma Length_pure (data : F → string) min max message :
  pure_validator (Length data min max message).
Proof. by intros f. Qed.
Lemma Length_safe (data : F → string) min max message :
  safe_validator (Length data min max message).
Proof. intros f e. unfold Length. simpl. by case_match. Qed.
Lemma ValidChoice_pure (data : F → string) choices : pure_validator (ValidChoice data choices).
Proof. by intros f. Qed.
Lemma ValidChoice_safe (data : F → string) choices : safe_validator (ValidChoice data choices).
Proof. intros f e. unfold ValidChoice. simpl. by case_match. Qed.
Lemma EqualTo_pure (data other : F → string) message :
  pure_validator (EqualTo data other message).
Proof. by intros f. Qed.
Lemma EqualTo_safe (data other : F → string) message :
  safe_validator (EqualTo data other message).
Proof. intros f e. unfold EqualTo. simpl. by case_match. Qed.
End validation.

Lemma RegistrationForm_validate_email_pure (st : State) :
  pure_validator (RegistrationForm.validate_email st).
Proof.
  intros f. unfold RegistrationForm.validate_email, try_except_Exception.
  by destruct (query_email_index _ _).
Qed.

Lemma RegistrationForm_validate_email_safe (st : State) :
  safe_validator (RegistrationForm.validate_email st).
Proof.
  intros f e. unfold RegistrationForm.validate_email, try_except_Exception.
  by destruct (query_email_index _ _).
Qed.

Lemma UpdateUserForm_validate_email_pure : pure_validator UpdateUserForm.validate_email.
Proof.
  intros f. unfold UpdateUserForm.validate_email.
  destruct (UpdateUserForm.table f); [done|]. by case_match.
Qed.

Create HintDb validators.
#[export] Hint Resolve DataRequired_pure DataRequired_safe DataRequired_object_pure
  DataRequired_object_safe Optional_pure Optional_safe Email_pure Email_safe
  Length_pure Length_safe ValidChoice_pure ValidChoice_safe EqualTo_pure
  EqualTo_safe RegistrationForm_validate_email_pure
  RegistrationForm_validate_email_safe UpdateUserForm_validate_email_pure
  : validators.

Ltac pure_chain := repeat constructor; eauto with validators.

(** ** The principal *)

(** The [user_loader] builds the principal without the stored
    [administrator] attribute: every principal it returns has the default. *)
Lemma load_user_principal (st : State) (clock uid : string) (u : User) :
  load_user st clock uid = Some u → get_id u = uid ∧ is_administrator u = false.
Proof.
  unfold load_user. intros Hload.
  destruct (get_item (users st) uid) as [it|] eqn:Hget; simplify_option_eq.
  apply users_get_item_user_id in Hget. split; [|done].
  unfold get_id. simpl. congruence.
Qed.

Lemma current_user_principal (st : State) (req : Request) (u : User) :
  current_user st req = Some u →
  session st = Some (get_id u) ∧ is_administrator u = false.
Proof.
  unfold current_user. intros Hcu.
  destruct (session st) as [uid|]; simplify_eq/=.
  apply load_user_principal in Hcu as [<- Hadmin]. done.
Qed.

(** ** Member update: [account] *)

Definition missing_dynamodb_table : exn :=
  TypeError "__init__() missing 1 required positional argument: 'dynamodb_table'".

Lemma UpdateUserForm_init_one_argument `{Libraries} (a : PyArg) (req : Request) :
  UpdateUserForm.init [a] req = inl missing_dynamodb_table.
Proof. reflexivity. Qed.

Lemma account_absent `{Libraries} (user_id : string) (cu : User) (st : State)
    (req : Request) :
  get_item (users st) user_id = None →
  account user_id cu st req =
    {| response := Abort 404; flashed := []; state_after := st |}.
Proof. intros Hget. unfold account. by rewrite Hget. Qed.

Lemma account_forbidden `{Libraries} (user_id : string) (cu : User) (st : State)
    (req : Request) (user : Item) :
  get_item (users st) user_id = Some user →
  get_id cu ≠ user_id → is_administrator cu = false →
  account user_id cu st req =
    {| response := Abort 403; flashed := []; state_after := st |}.
Proof.
  intros Hget Hne Hadmin. unfold account. rewrite Hget.
  rewrite (users_get_item_user_id _ _ _ Hget), Hadmin.
  destruct (String.eqb_spec user_id (get_id cu)) as [->|_]; [done|]. done.
Qed.

Lemma account_allowed `{Libraries} (user_id : string) (cu : User) (st : State)
    (req : Request) (user : Item) :
  get_item (users st) user_id = Some user →
  get_id cu = user_id ∨ is_administrator cu = true →
  account user_id cu st req =
    {| response := Uncaught missing_dynamodb_table; flashed := [];
       state_after := st |}.
Proof.
  intros Hget Hpass. unfold account. rewrite Hget.
  rewrite (users_get_item_user_id _ _ _ Hget).
  destruct Hpass as [ <- | -> ].
  - by rewrite String.eqb_refl.
  - by rewrite andb_false_r.
Qed.

(** Whatever the request, [account] leaves the state as it found it and
    renders no page. *)
Lemma account_never_writes `{Libraries} (user_id : string) (cu : User)
    (st : State) (req : Request) :
  state_after (account user_id cu st req) = st
  ∧ ∀ template ctx, response (account user_id cu st req) ≠ Render template ctx.
Proof.
  unfold account.
  destruct (get_item (users st) user_id) as [user|]; [|done].
  destruct (get_S user "user_id") as [owner|]; [|done].
  by destruct (negb (owner =? get_id cu)%string && negb (is_administrator cu)).
Qed.

(** Through [login_required], a request for another member's account is
    refused whoever sends it: the principal never carries the stored
    [administrator] attribute. *)
Lemma account_view_other_member `{Libraries} (target : string) (st : State)
    (req : Request) (cu : User) (user : Item) :
  current_user st req = Some cu →
  get_item (users st) target = Some user →
  get_id cu ≠ target →
  account_view target st req =
    {| response := Abort 403; flashed := []; state_after := st |}.
Proof.
  intros Hcu Hget Hne. unfold account_view, login_required. rewrite Hcu.
  apply current_user_principal in Hcu as [_ Hadmin].
  by eapply account_forbidden.
Qed.

(** C3: when the target member exists and the requester is that member or an
    administrator, [account] ends in the [TypeError] of [UpdateUserForm(user_id)]
    (one positional argument for two required parameters); the error leaves
    the handler uncaught, nothing is flashed, and the state is the one before
    the request, so that no record reaches the form and none is updated. *)
Theorem account_form_construction_raises `{Libraries} (user_id : string)
    (cu : User) (st : State) (req : Request) (user : Item) :
  get_item (users st) user_id = Some user →
  get_id cu = user_id ∨ is_administrator cu = true →
  UpdateUserForm.init [ArgStr user_id] req
    = inl (TypeError
             "__init__() missing 1 required positional argument: 'dynamodb_table'")
  ∧ account user_id cu st req =
      {| response :=
           Uncaught
             (TypeError
                "__init__() missing 1 required positional argument: 'dynamodb_table'");
         flashed := []; state_after := st |}.
Proof.
  intros Hget Hpass. split; [reflexivity|].
  by apply (account_allowed user_id cu st req user).
Qed.

Lemma account_form_construction_raises_witness :
  @account Demo.libraries "U1" (Demo.principal "U1" false) (Demo.state (Some "U1"))
    (Demo.request POST "/U1/account" [("email", "new@example.com")] [])
  = {| response := Uncaught missing_dynamodb_table; flashed := [];
       state_after := Demo.state (Some "U1") |}.
Proof.
  apply (@account_form_construction_raises Demo.libraries "U1"
           (Demo.principal "U1" false)
           (Demo.state (Some "U1"))
           (Demo.request POST "/U1/account" [("email", "new@example.com")] [])
           (read_row (users (Demo.state (Some "U1"))) "U1"
              (Demo.member "alice" "a@example.com" "password123" false))).
  - vm_compute. reflexivity.
  - left. reflexivity.
Defined.

(** C8: a member whose stored record has [administrator = True] asks for
    another member's account.  The principal of the request comes from
    [load_user], which never reads that attribute, so the owner-or-admin
    test of [account] sees [is_administrator = False] and the request is
    refused with 403. *)
Theorem account_view_stored_administrator_refused :
  let st := Demo.state (Some "A1") in
  let req := Demo.request GET "/U2/account" [] [] in
  (get_item (users st) "A1" ≫= (!!) "administrator") = Some (AttrBOOL true)
  ∧ (is_administrator <$> current_user st req) = Some false
  ∧ is_Some (get_item (users st) "U2")
  ∧ @account_view Demo.libraries "U2" st req =
      {| response := Abort 403; flashed := []; state_after := st |}.
Proof.
  cbv zeta. split; [vm_compute; reflexivity|]. split; [vm_compute; reflexivity|].
  split; [apply (bool_decide_unpack _); vm_compute; exact I|].
  vm_compute. reflexivity.
Qed.

(** ** Posts: [update] and [delete] *)

Lemma update_get_forbidden (post_id : string) (cu : User) (st : State)
    (req : Request) (post : Item) :
  is_Some (posts_table_name st) → method req = GET →
  get_item (posts st) post_id = Some post →
  get_S post "user_id" ≠ Some (get_id cu) → is_administrator cu = false →
  update post_id cu st req =
    {| response := Redirect (url_for "index");
       flashed := [(msg_no_permission, "error")]; state_after := st |}.
Proof.
  intros [name Hname] Hmethod Hget Hne Hadmin. unfold update.
  rewrite Hname, Hmethod, Hget, Hadmin.
  by rewrite bool_decide_eq_false_2.
Qed.

(** The [POST] branch of [update] never looks at the requester. *)
Lemma update_post_any_principal (post_id : string) (cu cu' : User) (st : State)
    (req : Request) :
  method req = POST → update post_id cu st req = update post_id cu' st req.
Proof. intros Hmethod. unfold update. by rewrite Hmethod. Qed.

Lemma update_post_writes (post_id : string) (cu : User) (st : State)
    (req : Request) :
  is_Some (posts_table_name st) → method req = POST →
  update post_id cu st req =
    {| response := Redirect (url_for "index");
       flashed := [(msg_post_updated, "success")];
       state_after :=
         set_posts st (update_item (posts st) post_id (update_assignments req)) |}.
Proof. intros [name Hname] Hmethod. unfold update. by rewrite Hname, Hmethod. Qed.

(** C1: member [U2], who is neither the owner of post [P1] nor an
    administrator, is refused on [GET] but not on [POST]: the [POST] branch
    has no ownership test, rewrites the title of [P1] and answers with the
    success message. *)
Theorem update_post_by_stranger_writes :
  let st := Demo.state (Some "U2") in
  let get := Demo.request GET "/P1/update" [] [] in
  let post := Demo.request POST "/P1/update" [("title", "taken over")] [] in
  (get_item (posts st) "P1" ≫= (!!) "user_id") = Some (AttrS "U1")
  ∧ ((λ u, (get_id u, is_administrator u)) <$> current_user st post)
      = Some ("U2", false)
  ∧ update_view "P1" st get =
      {| response := Redirect "/"; flashed := [(msg_no_permission, "error")];
         state_after := st |}
  ∧ response (update_view "P1" st post) = Redirect "/"
  ∧ flashed (update_view "P1" st post) = [(msg_post_updated, "success")]
  ∧ (get_item (posts st) "P1" ≫= (!!) "title") = Some (AttrS "old title")
  ∧ (get_item (posts (state_after (update_view "P1" st post))) "P1"
       ≫= (!!) "title") = Some (AttrS "taken over").
Proof. vm_compute. repeat split; reflexivity. Qed.

(** C9: [delete] removes nothing.  Its first step evaluates the name [Post],
    which [app.py] neither imports nor defines: the handler ends in a
    [NameError], with the posts table as it was and no redirect. *)
Theorem delete_raises_name_error (id : nat) (cu : User) (st : State)
    (req : Request) :
  ("Post" ∉ module_globals)
  ∧ delete id cu st req =
      {| response := Uncaught (NameError "Post"); flashed := [];
         state_after := st |}.
Proof.
  assert (bool_decide ("Post" ∈ module_globals) = false) as Hunbound
    by (vm_compute; reflexivity).
  split; [by apply bool_decide_eq_false in Hunbound|].
  unfold delete, load_global. by rewrite Hunbound.
Qed.

(** The [SET] list of a submission that supplies only the email. *)
Lemma account_assignments_only_email `{Libraries} (req : Request)
    (f : UpdateUserForm.t) :
  UpdateUserForm.user_name f = "" → UpdateUserForm.password f = "" →
  UpdateUserForm.email f ≠ "" →
  account_assignments req f =
    [("email", AttrS (UpdateUserForm.email f)); ("updated_at", AttrS (now req))].
Proof.
  intros Hname Hpw Hemail. unfold account_assignments. rewrite Hname, Hpw. simpl.
  by destruct (UpdateUserForm.email f).
Qed.

(** No form that passes validation has an empty [user_name]: the field is
    [DataRequired]. *)
Lemma UpdateUserForm_valid_user_name `{Libraries} (f f' : UpdateUserForm.t) :
  UpdateUserForm.validate f = inr ([], f') → UpdateUserForm.user_name f ≠ "".
Proof.
  unfold UpdateUserForm.validate, UpdateUserForm.fields. intros Hvalid Hempty.
  apply validate_fields_nil_inv in Hvalid as (f1 & Hrun1 & Hvalid).
  apply run_validation_chain_pure in Hrun1 as ->; [|pure_chain].
  apply validate_fields_nil_inv in Hvalid as (f2 & Hrun2 & Hvalid).
  apply run_validation_chain_pure in Hrun2 as ->; [|pure_chain].
  apply validate_fields_nil_inv in Hvalid as (f3 & Hrun3 & _).
  simpl in Hrun3. unfold DataRequired in Hrun3. rewrite Hempty in Hrun3.
  simpl in Hrun3. congruence.
Qed.

(** C5: member [U1] submits the account form with only [email] filled in.
    The handler stops at [UpdateUserForm(user_id)]: the stored email stays
    the old one and [updated_at] is not set. *)
Theorem account_email_only_changes_nothing :
  let st := Demo.state (Some "U1") in
  let req := Demo.request POST "/U1/account" [("email", "new@example.com")] [] in
  let out := @account_view Demo.libraries "U1" st req in
  response out = Uncaught missing_dynamodb_table
  ∧ state_after out = st
  ∧ (get_item (users (state_after out)) "U1" ≫= (!!) "email")
      = Some (AttrS "a@example.com")
  ∧ (get_item (users (state_after out)) "U1" ≫= (!!) "updated_at")
      = Some (AttrS "2024-01-01T00:00:00")
  ∧ now req = "2024-06-01T12:00:00".
Proof. vm_compute. repeat split; reflexivity. Qed.

(** ** Login *)

(** The outcome of the [email] chain of the login form. *)
Lemma LoginForm_email_chain `{Libraries} (st : State) (f : LoginForm.t) :
  run_validation_chain
    [ DataRequired LoginForm.email "メールアドレスを入力してください";
      Email LoginForm.email "正しいメールアドレスの形式で入力してください";
      LoginForm.validate_email st ] f []
  = if truthy (LoginForm.email f) && truthy (str_strip (LoginForm.email f))
    then
      let syntax :=
        if email_syntax_ok (LoginForm.email f) then []
        else ["正しいメールアドレスの形式で入力してください"] in
      match query_email_index (users st) (LoginForm.email f) with
      | [] => inr (syntax ++ [LoginForm.msg_login_error], f)
      | item :: _ => inr (syntax, LoginForm.set_user f item)
      end
    else inr (["メールアドレスを入力してください"], f).
Proof.
  unfold run_validation_chain, DataRequired, Email, LoginForm.validate_email,
    try_except_Exception.
  destruct (truthy (LoginForm.email f) && truthy (str_strip (LoginForm.email f)));
    [|done].
  destruct (email_syntax_ok (LoginForm.email f));
    by destruct (query_email_index (users st) (LoginForm.email f)).
Qed.

(** The outcome of the [password] chain of the login form. *)
Lemma LoginForm_password_chain `{Libraries} (f : LoginForm.t) :
  run_validation_chain
    [ DataRequired LoginForm.password "パスワードを入力してください";
      LoginForm.validate_password ] f []
  = if truthy (LoginForm.password f) && truthy (str_strip (LoginForm.password f))
    then
      match LoginForm.user f with
      | None => inr ([LoginForm.msg_check_email_first], f)
      | Some u =>
          match u !! "password" with
          | None => inl (KeyError "password")
          | Some pwhash =>
              match check_password pwhash (LoginForm.password f) with
              | inl e => inl e
              | inr true => inr ([], f)
              | inr false => inr ([LoginForm.msg_wrong_password], f)
              end
          end
      end
    else inr (["パスワードを入力してください"], f).
Proof.
  unfold run_validation_chain, DataRequired, LoginForm.validate_password.
  destruct (truthy (LoginForm.password f)
            && truthy (str_strip (LoginForm.password f))); [|done].
  destruct (LoginForm.user f) as [u|]; [|done].
  destruct (u !! "password") as [pwhash|]; [|done].
  by destruct (check_password pwhash (LoginForm.password f)) as [e|[]].
Qed.

(** [LoginForm.validate], field by field. *)
Lemma LoginForm_validate_unfold `{Libraries} (st : State) (f : LoginForm.t) :
  LoginForm.validate st f =
    '(email_errors, f1) ←
       run_validation_chain
         [ DataRequired LoginForm.email "メールアドレスを入力してください";
           Email LoginForm.email "正しいメールアドレスの形式で入力してください";
           LoginForm.validate_email st ] f [];
    '(password_errors, f2) ←
       run_validation_chain
         [ DataRequired LoginForm.password "パスワードを入力してください";
           LoginForm.validate_password ] f1 [];
    mret (match email_errors with [] => [] | _ => [("email", email_errors)] end
          ++ match password_errors with
             | [] => []
             | _ => [("password", password_errors)]
             end, f2).
Proof.
  unfold LoginForm.validate, LoginForm.fields. cbn [validate_fields].
  match goal with
  | |- context [run_validation_chain ?c f []] =>
      destruct (run_validation_chain c f []) as [e|[email_errors f1]]
  end; [done|].
  unfold mbind, exn_bind. cbn beta iota.
  match goal with
  | |- context [run_validation_chain ?c f1 []] =>
      destruct (run_validation_chain c f1 []) as [e|[password_errors f2]]
  end; [done|].
  by destruct email_errors, password_errors.
Qed.

(** The login form of a request whose email is held by no record fails
    validation, whatever else was submitted. *)
Lemma LoginForm_validate_unknown_email `{Libraries} (st : State) (req : Request) :
  query_email_index (users st) (form_get req "email") = [] →
  ∃ errors f', LoginForm.validate st (LoginForm.init req) = inr (errors, f')
               ∧ errors ≠ [].
Proof.
  intros Hquery. rewrite LoginForm_validate_unfold, LoginForm_email_chain.
  change (LoginForm.email (LoginForm.init req)) with (form_get req "email").
  rewrite Hquery.
  destruct (truthy (form_get req "email") && _);
    destruct (email_syntax_ok (form_get req "email"));
    unfold mbind, exn_bind; cbn beta iota zeta;
    rewrite LoginForm_password_chain;
    change (LoginForm.user (LoginForm.init req)) with (@None Item);
    destruct (truthy _ && _); cbn;
    (eexists _, _; split; [reflexivity|done]).
Qed.

(** So does the form of a request whose password fails the check against the
    record found for its email. *)
Lemma LoginForm_validate_wrong_password `{Libraries} (st : State) (req : Request)
    (item : Item) (others : list Item) (pwhash : string) :
  query_email_index (users st) (form_get req "email") = item :: others →
  item !! "password" = Some (AttrS pwhash) →
  check_password_hash pwhash (form_get req "password") = inr false →
  ∃ errors f', LoginForm.validate st (LoginForm.init req) = inr (errors, f')
               ∧ errors ≠ [].
Proof.
  intros Hquery Hattr Hcheck.
  rewrite LoginForm_validate_unfold, LoginForm_email_chain.
  change (LoginForm.email (LoginForm.init req)) with (form_get req "email").
  rewrite Hquery.
  destruct (truthy (form_get req "email") && _);
    destruct (email_syntax_ok (form_get req "email"));
    unfold mbind, exn_bind; cbn beta iota zeta;
    rewrite LoginForm_password_chain;
    cbn [LoginForm.user LoginForm.password LoginForm.set_user LoginForm.init];
    rewrite ?Hattr; cbn [check_password]; rewrite ?Hcheck;
    destruct (truthy _ && _); cbn;
    (eexists _, _; split; [reflexivity|done]).
Qed.

(** A login whose form has errors re-renders the form: nothing is flashed,
    in particular not the generic message, and the state is untouched. *)
Lemma login_invalid_form `{Libraries} (st : State) (req : Request)
    (errors : FormErrors) (f' : LoginForm.t) :
  current_user st req = None → method req = POST →
  LoginForm.validate st (LoginForm.init req) = inr (errors, f') → errors ≠ [] →
  login st req = render_login errors [] st.
Proof.
  intros Hcu Hmethod Hvalid Herrors. unfold login.
  rewrite Hcu, Hmethod, Hvalid. by destruct errors.
Qed.

Lemma login_unknown_email `{Libraries} (st : State) (req : Request) :
  current_user st req = None → method req = POST →
  query_email_index (users st) (form_get req "email") = [] →
  ∃ errors, errors ≠ [] ∧ login st req = render_login errors [] st.
Proof.
  intros Hcu Hmethod Hquery.
  destruct (LoginForm_validate_unknown_email st req Hquery)
    as (errors & f' & Hvalid & Herrors).
  exists errors. split; [done|]. by eapply login_invalid_form.
Qed.

Lemma login_wrong_password `{Libraries} (st : State) (req : Request)
    (item : Item) (others : list Item) (pwhash : string) :
  current_user st req = None → method req = POST →
  query_email_index (users st) (form_get req "email") = item :: others →
  item !! "password" = Some (AttrS pwhash) →
  check_password_hash pwhash (form_get req "password") = inr false →
  ∃ errors, errors ≠ [] ∧ login st req = render_login errors [] st.
Proof.
  intros Hcu Hmethod Hquery Hattr Hcheck.
  destruct (LoginForm_validate_wrong_password st req item others pwhash
              Hquery Hattr Hcheck) as (errors & f' & Hvalid & Herrors).
  exists errors. split; [done|]. by eapply login_invalid_form.
Qed.

(** C2: two failed logins, one with an email no record holds and one with a
    registered email and a wrong password.  Neither binds a session, and
    neither is answered with the generic message: both stop in the form's
    validators, whose field errors tell the two causes apart. *)
Theorem login_failures_are_told_apart :
  let st := Demo.state None in
  let unknown :=
    Demo.request POST "/login"
      [("email", "x@example.com"); ("password", "password123")] [] in
  let wrong :=
    Demo.request POST "/login"
      [("email", "a@example.com"); ("password", "not-the-password")] [] in
  query_email_index (users st) "x@example.com" = []
  ∧ @login Demo.libraries st unknown =
      render_login
        [("email", [LoginForm.msg_login_error]);
         ("password", [LoginForm.msg_check_email_first])] [] st
  ∧ @login Demo.libraries st wrong =
      render_login [("password", [LoginForm.msg_wrong_password])] [] st
  ∧ response (@login Demo.libraries st unknown)
      ≠ response (@login Demo.libraries st wrong)
  ∧ ((msg_invalid_credentials, "error")
       ∉ flashed (@login Demo.libraries st unknown))
  ∧ ((msg_invalid_credentials, "error")
       ∉ flashed (@login Demo.libraries st wrong)).
Proof.
  assert (@login Demo.libraries (Demo.state None)
            (Demo.request POST "/login"
               [("email", "x@example.com"); ("password", "password123")] [])
          = render_login
              [("email", [LoginForm.msg_login_error]);
               ("password", [LoginForm.msg_check_email_first])] []
              (Demo.state None)) as Hunknown by (vm_compute; reflexivity).
  assert (@login Demo.libraries (Demo.state None)
            (Demo.request POST "/login"
               [("email", "a@example.com"); ("password", "not-the-password")] [])
          = render_login [("password", [LoginForm.msg_wrong_password])] []
              (Demo.state None)) as Hwrong by (vm_compute; reflexivity).
  cbv zeta. rewrite Hunknown, Hwrong.
  split; [by vm_compute|]. split; [done|]. split; [done|].
  split; [discriminate|]. split; apply not_elem_of_nil.
Qed.

(** ** Registration *)

Section pure_forms.
Context `{Libraries} {F : Type}.

(** With validators that leave the form alone, the errors of a field are
    those of its own chain. *)
Lemma validate_fields_field_errors (fields : list (string * list (validator F)))
    (f f' : F) (errors : FormErrors) (name : string) (chain : list (validator F))
    (es : list string) :
  Forall (λ field, Forall pure_validator field.2) fields →
  validate_fields fields f = inr (errors, f') →
  (name, chain) ∈ fields →
  run_validation_chain chain f [] = inr (es, f) → es ≠ [] →
  (name, es) ∈ errors.
Proof.
  intros Hpure. revert errors.
  induction Hpure as [|[name0 chain0] fields Hchain0 _ IH];
    intros errors Hvalid Hin Hrun Hes.
  - by apply elem_of_nil in Hin.
  - simpl in Hvalid, Hchain0.
    destruct (run_validation_chain chain0 f []) as [e|[errs0 f0]] eqn:Hrun0;
      [done|].
    apply run_validation_chain_pure in Hrun0 as Hf0; [|done]. subst f0.
    destruct (validate_fields fields f) as [e|[rest f1]] eqn:Hrest; [done|].
    apply elem_of_cons in Hin as [Heq|Hin].
    + simplify_eq. rewrite Hrun in Hrun0. simplify_eq.
      destruct errs0; [done|]. left.
    + assert (f1 = f') as -> by congruence.
      assert ((name, es) ∈ rest) by (by apply IH).
      destruct errs0; simplify_eq; [done|by right].
Qed.
End pure_forms.

Lemma flash_form_errors_elem (label : string → string) (errors : FormErrors)
    (name error : string) (es : list string) :
  (name, es) ∈ errors → error ∈ es →
  (label name +:+ ": " +:+ error, "error") ∈ flash_form_errors label errors.
Proof.
  intros Hin He. unfold flash_form_errors.
  apply list_elem_of_In, in_flat_map. exists (name, es).
  split; [by apply list_elem_of_In|].
  apply list_elem_of_In, list_elem_of_fmap. by exists error.
Qed.

(** The outcome of the [email] chain of the registration form. *)
Lemma RegistrationForm_email_chain `{Libraries} (st : State)
    (f : RegistrationForm.t) :
  run_validation_chain
    [ DataRequired RegistrationForm.email "This field is required.";
      Email RegistrationForm.email "正しいメールアドレスを入力してください";
      RegistrationForm.validate_email st ] f []
  = if truthy (RegistrationForm.email f)
       && truthy (str_strip (RegistrationForm.email f))
    then
      let syntax :=
        if email_syntax_ok (RegistrationForm.email f) then []
        else ["正しいメールアドレスを入力してください"] in
      match query_email_index (users st) (RegistrationForm.email f) with
      | [] => inr (syntax, f)
      | _ :: _ => inr (syntax ++ [RegistrationForm.msg_email_check_error], f)
      end
    else inr (["This field is required."], f).
Proof.
  unfold run_validation_chain, DataRequired, Email,
    RegistrationForm.validate_email, try_except_Exception.
  destruct (truthy (RegistrationForm.email f)
            && truthy (str_strip (RegistrationForm.email f))); [|done].
  destruct (email_syntax_ok (RegistrationForm.email f));
    by destruct (query_email_index (users st) (RegistrationForm.email f)).
Qed.

Lemma RegistrationForm_fields_pure `{Libraries} (st : State) :
  Forall (λ field, Forall pure_validator field.2) (RegistrationForm.fields st).
Proof. unfold RegistrationForm.fields. pure_chain. Qed.

Lemma RegistrationForm_validate_total `{Libraries} (st : State)
    (f : RegistrationForm.t) :
  ∃ errors, RegistrationForm.validate st f = inr (errors, f).
Proof.
  apply validate_fields_total. unfold RegistrationForm.fields. pure_chain.
Qed.

(** A registration form whose email some record already holds has errors. *)
Lemma RegistrationForm_validate_duplicate `{Libraries} (st : State)
    (f : RegistrationForm.t) :
  query_email_index (users st) (RegistrationForm.email f) ≠ [] →
  ∃ errors, RegistrationForm.validate st f = inr (errors, f)
            ∧ errors ≠ []
            ∧ (truthy (RegistrationForm.email f)
               && truthy (str_strip (RegistrationForm.email f)) = true →
               ∃ es, ("email", es) ∈ errors
                     ∧ RegistrationForm.msg_email_check_error ∈ es).
Proof.
  intros Hquery.
  destruct (RegistrationForm_validate_total st f) as [errors Hvalid].
  exists errors. split; [done|].
  pose proof (RegistrationForm_email_chain st f) as Hchain.
  destruct (query_email_index (users st) (RegistrationForm.email f))
    as [|item others]; [done|].
  assert (∃ es, run_validation_chain
                  [ DataRequired RegistrationForm.email "This field is required.";
                    Email RegistrationForm.email
                      "正しいメールアドレスを入力してください";
                    RegistrationForm.validate_email st ] f [] = inr (es, f)
                ∧ es ≠ []
                ∧ (truthy (RegistrationForm.email f)
                   && truthy (str_strip (RegistrationForm.email f)) = true →
                   RegistrationForm.msg_email_check_error ∈ es))
    as (es & Hrun & Hes & Hmsg).
  { rewrite Hchain.
    destruct (truthy (RegistrationForm.email f) && _).
    - eexists. split; [done|]. split.
      + by destruct (email_syntax_ok _).
      + intros _. cbn zeta. apply elem_of_app. right. left.
    - eexists. split; [done|]. split; [done|]. done. }
  assert (("email", es) ∈ errors) as Hin.
  { eapply validate_fields_field_errors;
      [apply RegistrationForm_fields_pure|exact Hvalid| |exact Hrun|exact Hes].
    unfold RegistrationForm.fields. do 7 right. left. }
  split.
  - intros ->. by apply elem_of_nil in Hin.
  - intros Hreq. exists es. split; [done|]. by apply Hmsg.
Qed.

(** Every duplicate registration is answered with the form re-rendered; the
    member table is left as it was. *)
Lemma signup_duplicate_email `{Libraries} (st : State) (req : Request) :
  method req = POST →
  query_email_index (users st) (form_get req "email") ≠ [] →
  ∃ errors,
    errors ≠ []
    ∧ signup st req =
        {| response := Render "signup.html" (CtxForm errors);
           flashed := flash_form_errors RegistrationForm.label errors;
           state_after := st |}
    ∧ (truthy (form_get req "email")
       && truthy (str_strip (form_get req "email")) = true →
       ("メールアドレス: メールアドレスの確認中にエラーが発生しました。", "error")
         ∈ flash_form_errors RegistrationForm.label errors).
Proof.
  intros Hmethod Hquery.
  destruct (RegistrationForm_validate_duplicate st (RegistrationForm.init req)
              Hquery) as (errors & Hvalid & Herrors & Hemail).
  exists errors. split; [done|]. split.
  - unfold signup. rewrite Hmethod, Hvalid. by destruct errors.
  - intros Hreq. destruct (Hemail Hreq) as (es & Hin & Hmsg).
    by apply (flash_form_errors_elem RegistrationForm.label errors "email"
                RegistrationForm.msg_email_check_error es).
Qed.

(** C4: a registration that reuses the email of member [U1].  The member
    table is unchanged, but the message shown is not a duplicate-email
    message: the [ValidationError] that [validate_email] raises for the
    duplicate is caught by its own [except Exception] and replaced by the
    message for a failed check. *)
Theorem signup_duplicate_email_message :
  let st := Demo.state None in
  let req := Demo.request POST "/signup" (Demo.registration "a@example.com") [] in
  let out := @signup Demo.libraries st req in
  query_email_index (users st) "a@example.com" ≠ []
  ∧ state_after out = st
  ∧ response out =
      Render "signup.html"
        (CtxForm [("email", [RegistrationForm.msg_email_check_error])])
  ∧ flashed out =
      [("メールアドレス: メールアドレスの確認中にエラーが発生しました。", "error")]
  ∧ ((msg_signup_duplicate, "error") ∉ flashed out).
Proof.
  assert (@signup Demo.libraries (Demo.state None)
            (Demo.request POST "/signup" (Demo.registration "a@example.com") [])
          = {| response :=
                 Render "signup.html"
                   (CtxForm [("email", [RegistrationForm.msg_email_check_error])]);
               flashed :=
                 [("メールアドレス: メールアドレスの確認中にエラーが発生しました。",
                   "error")];
               state_after := Demo.state None |}) as Hout
    by (vm_compute; reflexivity).
  cbv zeta. rewrite Hout. simpl.
  split.
  { intros Hnil. apply (f_equal length) in Hnil. vm_compute in Hnil.
    discriminate Hnil. }
  split; [done|]. split; [done|]. split; [done|].
  intros Hin. apply list_elem_of_singleton in Hin. discriminate Hin.
Qed.

(** ** Login: the record looked up, and the continuation *)

Lemma current_user_anonymous (st : State) (req : Request) :
  session st = None → current_user st req = None.
Proof. unfold current_user. by intros ->. Qed.

Lemma login_build_user_id (clock : string) (user_data : Item) (u : User) :
  login_build_user clock user_data = Some u →
  user_data !! "user_id" = Some (user_id u).
Proof. unfold login_build_user. intros Hbuild. by simplify_option_eq. Qed.

(** Validation keeps what was submitted. *)
Lemma LoginForm_email_chain_data `{Libraries} (st : State) (f f1 : LoginForm.t)
    (es : list string) :
  run_validation_chain
    [ DataRequired LoginForm.email "メールアドレスを入力してください";
      Email LoginForm.email "正しいメールアドレスの形式で入力してください";
      LoginForm.validate_email st ] f [] = inr (es, f1) →
  LoginForm.email f1 = LoginForm.email f
  ∧ LoginForm.password f1 = LoginForm.password f.
Proof.
  rewrite LoginForm_email_chain. intros Hrun.
  repeat case_match; by simplify_eq/=.
Qed.

Lemma LoginForm_password_chain_data `{Libraries} (f f1 : LoginForm.t)
    (es : list string) :
  run_validation_chain
    [ DataRequired LoginForm.password "パスワードを入力してください";
      LoginForm.validate_password ] f [] = inr (es, f1) →
  f1 = f.
Proof.
  rewrite LoginForm_password_chain. intros Hrun.
  repeat case_match; by simplify_eq/=.
Qed.

Lemma LoginForm_validate_data `{Libraries} (st : State) (f f' : LoginForm.t)
    (errors : FormErrors) :
  LoginForm.validate st f = inr (errors, f') →
  LoginForm.email f' = LoginForm.email f
  ∧ LoginForm.password f' = LoginForm.password f.
Proof.
  rewrite LoginForm_validate_unfold. unfold mbind, exn_bind.
  match goal with
  | |- context [run_validation_chain ?c f []] =>
      destruct (run_validation_chain c f []) as [e|[es f1]] eqn:Hemail
  end; [done|].
  cbn beta iota.
  match goal with
  | |- context [run_validation_chain ?c f1 []] =>
      destruct (run_validation_chain c f1 []) as [e|[ps f2]] eqn:Hpassword
  end; [done|].
  intros Hvalid. apply LoginForm_email_chain_data in Hemail.
  apply LoginForm_password_chain_data in Hpassword.
  unfold mret, exn_ret in Hvalid. by simplify_eq.
Qed.

(** The ways [login_submit] can end: with the session as it was, or bound
    to the record found for the lowercased email, after its password check. *)
Lemma login_submit_cases `{Libraries} (st : State) (req : Request)
    (f : LoginForm.t) :
  state_after (login_submit st req f) = st
  ∨ ∃ user_data others u,
      query_email_index (users st) (str_lower (LoginForm.email f))
        = user_data :: others
      ∧ login_build_user (now req) user_data = Some u
      ∧ check_password (password_hash u) (LoginForm.password f) = inr true
      ∧ state_after (login_submit st req f) = login_user u st.
Proof.
  unfold login_submit.
  destruct (query_email_index _ _) as [|user_data others]; [by left|].
  destruct (login_build_user _ _) as [u|] eqn:Hbuild; [|by left].
  destruct (check_password _ _) as [e|[]] eqn:Hcheck; [by left| |by left].
  right. exists user_data, others, u. repeat split; [done..|].
  destruct (truthy _); [|done]. by destruct (is_safe_url _ _) as [e|[]].
Qed.

(** A login that binds a session went through [login_submit] with a valid
    form, found a record for the lowercased email and checked the password
    against that record. *)
Lemma login_binds_inv `{Libraries} (st : State) (req : Request) :
  session st = None →
  session (state_after (login st req)) ≠ None →
  ∃ f' user_data others u,
    method req = POST
    ∧ LoginForm.validate st (LoginForm.init req) = inr ([], f')
    ∧ query_email_index (users st) (str_lower (form_get req "email"))
        = user_data :: others
    ∧ login_build_user (now req) user_data = Some u
    ∧ check_password (password_hash u) (form_get req "password") = inr true
    ∧ login st req = login_submit st req f'
    ∧ state_after (login st req) = login_user u st
    ∧ LoginForm.email f' = form_get req "email"
    ∧ LoginForm.password f' = form_get req "password".
Proof.
  intros Hanon Hbound. unfold login in *.
  rewrite (current_user_anonymous st req Hanon) in *.
  destruct (method req); [done|].
  destruct (LoginForm.validate st (LoginForm.init req))
    as [e|[[|field errors] f']] eqn:Hvalid; [done| |done].
  apply LoginForm_validate_data in Hvalid as Hdata. destruct Hdata as [Hemail Hpw].
  destruct (login_submit_cases st req f')
    as [Hsame|(user_data & others & u & Hquery & Hbuild & Hcheck & Hstate)].
  - rewrite Hsame in Hbound. done.
  - rewrite Hemail in Hquery. rewrite Hpw in Hcheck.
    exists f', user_data, others, u. by repeat split.
Qed.







(** * Further properties of the code *)

(** ** The principal: [load_user], [login_required], [logout] *)

Definition load_user_attributes : list string :=
  [ "user_id"; "display_name"; "user_name"; "furigana"; "email"; "password";
    "gender"; "date_of_birth"; "post_code"; "address"; "phone" ].

(** [load_user] returns a user exactly when the record exists and holds all
    eleven attributes it reads as strings; a missing record or attribute gives
    [None] (the anonymous user), never an error. *)
Theorem load_user_is_Some (st : State) (clock uid : string) :
  is_Some (load_user st clock uid) ↔
  ∃ item, get_item (users st) uid = Some item
          ∧ Forall (λ a, is_Some (get_S item a)) load_user_attributes.
Proof.
  unfold load_user, load_user_attributes. split.
  - intros [u Hload].
    apply bind_Some in Hload as (item & Hget & Hload).
    exists item. split; [done|].
    do 11 (apply bind_Some in Hload as (? & ? & Hload)).
    repeat (apply Forall_cons; split; [by eexists|]). apply Forall_nil_2.
  - intros (item & -> & Hall).
    do 11 (apply Forall_cons in Hall as [[? ?] Hall]).
    eexists. apply bind_Some. exists item. split; [done|].
    do 11 (apply bind_Some; eexists; split; [eassumption|]). done.
Qed.

(** The principal [load_user] returns is the member the session names, with
    that member's stored email and password hash, and it is never an
    administrator: the stored [administrator] attribute is not read. *)
Theorem load_user_member (st : State) (clock uid : string) (u : User) :
  load_user st clock uid = Some u →
  get_id u = uid
  ∧ is_administrator u = false
  ∧ ∃ item, get_item (users st) uid = Some item
            ∧ item !! "email" = Some (email u)
            ∧ item !! "password" = Some (password_hash u).
Proof.
  intros Hload. destruct (load_user_principal _ _ _ _ Hload) as [Hid Hadmin].
  split; [done|]. split; [done|].
  unfold load_user in Hload.
  apply bind_Some in Hload as (item & Hget & Hload).
  exists item. split; [done|].
  do 11 (apply bind_Some in Hload as (? & ? & Hload)).
  injection Hload as <-. simpl.
  split; match goal with
         | Hattr : get_S item ?a = Some ?s |- item !! ?a = Some (AttrS ?s) =>
             unfold get_S in Hattr; by repeat case_match; simplify_eq
         end.
Qed.

Lemma load_user_member_witness :
  (get_item (users (Demo.state None)) "A1" ≫= (!!) "administrator")
    = Some (AttrBOOL true)
  ∧ ∃ u, load_user (Demo.state None) "2024-06-01T12:00:00" "A1" = Some u
         ∧ get_id u = "A1" ∧ is_administrator u = false.
Proof.
  split; [vm_compute; reflexivity|].
  assert (load_user (Demo.state None) "2024-06-01T12:00:00" "A1"
          = Some {| user_id := AttrS "A1"; display_name := AttrS "admin";
                    user_name := AttrS "admin"; furigana := AttrS "admin";
                    email := AttrS "root@example.com";
                    password_hash :=
                      AttrS (Demo.hash "pbkdf2:sha256" "salt" "adminadmin");
                    gender := AttrS "other"; date_of_birth := AttrS "1990-01-01";
                    post_code := AttrS "1000001"; address := AttrS "Tokyo";
                    phone := AttrS "0312345678"; organization := "uguis";
                    administrator := false;
                    created_at := "2024-06-01T12:00:00";
                    updated_at := "2024-06-01T12:00:00" |}) as Hload
    by (vm_compute; reflexivity).
  eexists. split; [exact Hload|].
  destruct (load_user_member _ _ _ _ Hload) as (Hid & Hadmin & _).
  split; [exact Hid|exact Hadmin].
Defined.

(** A session that names no stored member is an anonymous one. *)
Lemma current_user_stale (st : State) (req : Request) (uid : string) :
  session st = Some uid → get_item (users st) uid = None →
  current_user st req = None.
Proof.
  intros Hsession Hget. unfold current_user, load_user.
  rewrite Hsession. simpl. by rewrite Hget.
Qed.

Lemma dispatch_protected_anonymous `{Libraries} (r : Route) (st : State)
    (req : Request) :
  protected r = true → current_user st req = None →
  state_after (dispatch r st req) = st
  ∧ (method req ∈ allowed_methods r → dispatch r st req = unauthorized st req).
Proof.
  intros Hprotected Hanon. unfold dispatch.
  destruct (bool_decide (method req ∈ allowed_methods r)) eqn:Hmethod.
  - assert (∀ view, login_required view st req = unauthorized st req) as Hview
      by (intros view; unfold login_required; by rewrite Hanon).
    destruct r; try done;
      unfold index_view, logout_view, user_maintenance_view, account_view,
        update_view, delete_view; by rewrite Hview.
  - split; [done|]. intros Hin. by apply bool_decide_eq_false in Hmethod.
Qed.

(** Every route behind [login_required] turns an anonymous request away: a
    request without a session, or whose session names a member that is no
    longer stored, is redirected with the login message, and the state stays
    as it was. *)
Theorem protected_routes_turn_anonymous_away `{Libraries} (r : Route)
    (st : State) (req : Request) :
  protected r = true →
  method req ∈ allowed_methods r →
  session st = None
  ∨ (∃ uid, session st = Some uid ∧ get_item (users st) uid = None) →
  (∃ location, response (dispatch r st req) = Redirect location)
  ∧ flashed (dispatch r st req) = [(login_message, "message")]
  ∧ state_after (dispatch r st req) = st.
Proof.
  intros Hprotected Hmethod Hanon.
  assert (current_user st req = None) as Hcu.
  { destruct Hanon as [Hnone|(uid & Hsession & Hget)].
    - by apply current_user_anonymous.
    - by eapply current_user_stale. }
  destruct (dispatch_protected_anonymous r st req Hprotected Hcu) as [Hstate Hout].
  rewrite (Hout Hmethod). unfold unauthorized. simpl. eauto.
Qed.

Lemma protected_routes_turn_anonymous_away_witness :
  (∃ location,
     response (@dispatch Demo.libraries (RAccount "U1") (Demo.state (Some "gone"))
                 (Demo.request POST "/U1/account" [("email", "x@example.com")] []))
     = Redirect location)
  ∧ flashed (@dispatch Demo.libraries (RAccount "U1") (Demo.state (Some "gone"))
               (Demo.request POST "/U1/account" [("email", "x@example.com")] []))
    = [(login_message, "message")]
  ∧ state_after (@dispatch Demo.libraries (RAccount "U1") (Demo.state (Some "gone"))
                   (Demo.request POST "/U1/account" [("email", "x@example.com")] []))
    = Demo.state (Some "gone").
Proof.
  apply (@protected_routes_turn_anonymous_away Demo.libraries (RAccount "U1")
           (Demo.state (Some "gone"))
           (Demo.request POST "/U1/account" [("email", "x@example.com")] [])).
  - reflexivity.
  - simpl. right. left.
  - right. exists "gone". split; [reflexivity|]. vm_compute. reflexivity.
Defined.

(** [logout] unbinds the session and touches neither table; whatever
    protected route is asked for next is answered as for an anonymous
    visitor. *)
Theorem logout_ends_the_session `{Libraries} (st : State) (req req' : Request)
    (cu : User) (r : Route) :
  current_user st req = Some cu → method req = GET →
  protected r = true →
  let st' := state_after (dispatch RLogout st req) in
  response (dispatch RLogout st req) = Redirect "/login"
  ∧ session st' = None
  ∧ user_rows st' = user_rows st ∧ post_rows st' = post_rows st
  ∧ state_after (dispatch r st' req') = st'
  ∧ (method req' ∈ allowed_methods r →
     dispatch r st' req' = unauthorized st' req').
Proof.
  intros Hcu Hmethod Hprotected.
  assert (dispatch RLogout st req = logout cu st req) as Hout.
  { unfold dispatch. rewrite Hmethod. simpl.
    unfold logout_view, login_required. by rewrite Hcu. }
  cbv zeta. rewrite Hout. simpl.
  split; [done|]. split; [done|]. split; [done|]. split; [done|].
  apply dispatch_protected_anonymous; [done|].
  by apply current_user_anonymous.
Qed.

Lemma logout_ends_the_session_witness :
  session (state_after (@dispatch Demo.libraries RLogout (Demo.state (Some "U1"))
                          (Demo.request GET "/logout" [] []))) = None.
Proof.
  assert (current_user (Demo.state (Some "U1")) (Demo.request GET "/logout" [] [])
          = Some (User_init "2024-06-01T12:00:00" (AttrS "U1") (AttrS "alice")
                    (AttrS "alice") (AttrS "alice") (AttrS "a@example.com")
                    (AttrS (Demo.hash "pbkdf2:sha256" "salt" "password123"))
                    (AttrS "other") (AttrS "1990-01-01") (AttrS "1000001")
                    (AttrS "Tokyo") (AttrS "0312345678"))) as Hcu
    by (vm_compute; reflexivity).
  apply (@logout_ends_the_session Demo.libraries (Demo.state (Some "U1"))
           (Demo.request GET "/logout" [] []) (Demo.request GET "/" [] [])
           _ RIndex Hcu); reflexivity.
Defined.

(** [user_maintenance] shows every stored member, each once, to whoever is
    logged in (the handler has no administrator test), and changes nothing. *)
Theorem user_maintenance_lists_all (cu : User) (st : State) (req : Request) :
  ∃ listing,
    user_maintenance cu st req =
      {| response := Render "user_maintenance.html" (CtxUsers listing);
         flashed := []; state_after := st |}
    ∧ length listing = size (user_rows st)
    ∧ ∀ item, item ∈ listing ↔
              ∃ uid, get_item (users st) uid = Some item.
Proof.
  exists (scan (users st)). split; [done|]. split.
  - unfold scan. by rewrite length_fmap, length_map_to_list.
  - intros item. unfold scan, get_item. rewrite list_elem_of_fmap. split.
    + intros ([k r] & -> & Hin). apply elem_of_map_to_list in Hin.
      exists k. simpl in *. by rewrite Hin.
    + intros (uid & Hget). simpl in Hget.
      destruct (user_rows st !! uid) as [r|] eqn:Hrow; simplify_eq/=.
      exists (uid, r). split; [done|]. by apply elem_of_map_to_list.
Qed.

(** ** Login: what binding a session takes *)

Lemma login_build_user_password (clock : string) (user_data : Item) (u : User) :
  login_build_user clock user_data = Some u →
  user_data !! "password" = Some (password_hash u).
Proof.
  unfold login_build_user. intros Hbuild.
  do 11 (apply bind_Some in Hbuild as (? & ? & Hbuild)).
  by injection Hbuild as <-.
Qed.

(** A login binds the session only to a stored member whose email is the
    lowercased submitted email and whose stored hash the submitted password
    verifies against. *)
Theorem login_binds_verified_member `{Libraries} (st : State) (req : Request)
    (uid : string) :
  session st = None →
  session (state_after (login st req)) = Some uid →
  ∃ item pwhash,
    get_item (users st) uid = Some item
    ∧ item !! "email" = Some (AttrS (str_lower (form_get req "email")))
    ∧ item !! "password" = Some (AttrS pwhash)
    ∧ check_password_hash pwhash (form_get req "password") = inr true.
Proof.
  intros Hanon Hsession.
  destruct (login_binds_inv st req Hanon)
    as (f' & user_data & others & u & _ & _ & Hquery & Hbuild & Hcheck & _
        & Hstate & _ & _).
  { by rewrite Hsession. }
  assert (user_data ∈ query_email_index (users st)
                        (str_lower (form_get req "email"))) as Hin
    by (rewrite Hquery; left).
  apply elem_of_query_email_index in Hin as (k & r & Hrow & -> & Hemail).
  apply login_build_user_id in Hbuild as Hid.
  apply login_build_user_password in Hbuild as Hpw.
  unfold read_row in Hid at 1.
  change (key_name (users st)) with "user_id" in Hid.
  rewrite lookup_insert_eq in Hid.
  rewrite Hstate in Hsession. unfold login_user, set_session, get_id in Hsession.
  cbn [session] in Hsession.
  injection Hid as Hid. rewrite <- Hid in Hsession. cbn [py_str] in Hsession.
  injection Hsession as <-.
  destruct (password_hash u) as [pwhash|b]; [|done].
  exists (read_row (users st) k r), pwhash.
  split; [|done]. unfold get_item. by rewrite Hrow.
Qed.

Lemma login_binds_verified_member_witness :
  let req :=
    Demo.request POST "/login"
      [("email", "a@example.com"); ("password", "password123")] [] in
  ∃ item pwhash,
    get_item (users (Demo.state None)) "U1" = Some item
    ∧ item !! "email" = Some (AttrS (Demo.lower (form_get req "email")))
    ∧ item !! "password" = Some (AttrS pwhash)
    ∧ Demo.check pwhash (form_get req "password") = inr true.
Proof.
  apply (@login_binds_verified_member Demo.libraries (Demo.state None)
           (Demo.request POST "/login"
              [("email", "a@example.com"); ("password", "password123")] [])
           "U1").
  - reflexivity.
  - vm_compute. reflexivity.
Defined.

(** Whatever is submitted, [login] writes to neither table. *)
Theorem login_writes_no_table `{Libraries} (st : State) (req : Request) :
  user_rows (state_after (login st req)) = user_rows st
  ∧ post_rows (state_after (login st req)) = post_rows st
  ∧ posts_table_name (state_after (login st req)) = posts_table_name st.
Proof.
  unfold login. destruct (current_user st req); [done|].
  destruct (method req); [done|].
  destruct (LoginForm.validate st (LoginForm.init req))
    as [e|[[|field errors] f']]; [done| |done].
  destruct (login_submit_cases st req f')
    as [->|(user_data & others & u & _ & _ & _ & ->)]; done.
Qed.
